(** * Market-list utilities of the OpenPAI marketplace web portal plugin

    A shallow embedding of
    [webportal_plugin/src/App/market-list/utils/utils.js]
    and the properties of its document transformations.

    JavaScript objects whose key order is observable (task roles, log
    directories, parameters, secrets) are association lists kept in the order
    of [Object.keys]; for keys that are not canonical array indices this is
    the insertion order.  An object never holds the same key twice, which the
    statements that need it say as [NoDup] of the key list.  The port map of a
    task role, whose order is never observed, is a [gmap].  Mutation of the
    job document is explicit state passing: a function that mutates its
    argument returns the document as it is after the call.

    A document is a tree, as a parser of the job protocol builds it: two task
    roles do not share one command array or one port object.  As in the
    protocol, a document has its [taskRoles] mapping and every task role its
    [resourcePerInstance]; the properties the source guards with [||]
    ([commands], [ports], [parameters], [secrets], [extras], ...) are
    optional. *)

From stdpp Require Import gmap strings list pretty.

Local Open Scope Z_scope.
Set Warnings "-register-all".

(** ** JavaScript values and the lodash predicates the module imports *)

Module Js.

Inductive JsValue : Type :=
| JUndefined
| JNull
| JBool (b : bool)
| JNum (n : Z)
| JStr (s : string)
| JArr (items : list JsValue)
| JObj (fields : list (string * JsValue)).

(** A reference that may be [null] or [undefined]. *)
Inductive Nullable (A : Type) : Type :=
| Undefined
| Null
| Present (a : A).
Arguments Undefined {A}.
Arguments Null {A}.
Arguments Present {A} a.

(** [x || d] for an optional array or object: both are truthy when present. *)
Definition or_default {A : Type} (x : option A) (d : A) : A :=
  match x with Some a => a | None => d end.

(** *** Objects as ordered association lists *)

Section Object.
Context {V : Type}.

(** [Object.keys(o)] *)
Definition keys (o : list (string * V)) : list string := o.*1.

(** [o[k]] *)
Fixpoint get (k : string) (o : list (string * V)) : option V :=
  match o with
  | [] => None
  | (k', v) :: o' => if decide (k' = k) then Some v else get k o'
  end.

(** [o[k] = v]: an existing key keeps its place, a new key goes last.  This
    is the order of [Object.keys] for keys that are names; a new key that is
    an array index would go before the names. *)
Fixpoint set (k : string) (v : V) (o : list (string * V)) : list (string * V) :=
  match o with
  | [] => [(k, v)]
  | (k', v') :: o' =>
      if decide (k' = k) then (k, v) :: o' else (k', v') :: set k v o'
  end.

(** [delete o[k]] *)
Fixpoint remove (k : string) (o : list (string * V)) : list (string * V) :=
  match o with
  | [] => []
  | (k', v') :: o' =>
      if decide (k' = k) then o' else (k', v') :: remove k o'
  end.

(** [Object.keys(o).forEach(body)] where [body] may mutate a state. *)
Definition forEach {S : Type} (ks : list string) (body : string → S → S) (s : S) : S :=
  fold_left (λ acc k, body k acc) ks s.
End Object.

(** Reading a property that may be missing yields [undefined]. *)
Definition get_value (k : string) (o : list (string * JsValue)) : JsValue :=
  or_default (get k o) JUndefined.

(** The index keys ["0"], ["1"], ... of an array of the given length. *)
Definition index_keys (n : nat) : list string := (λ i : nat, pretty i) <$> seq 0 n.

(** [{...v}] for an object or an array. *)
Definition spread (v : JsValue) : list (string * JsValue) :=
  match v with
  | JObj fields => fields
  | JArr items => zip (index_keys (length items)) items
  | _ => []
  end.

(** *** lodash *)

Definition MAX_SAFE_INTEGER : Z := 9007199254740991.

Definition isNil (v : JsValue) : bool :=
  match v with JUndefined | JNull => true | _ => false end.

Definition isObject (v : JsValue) : bool :=
  match v with JArr _ | JObj _ => true | _ => false end.

Definition isLength (v : JsValue) : bool :=
  match v with
  | JNum n => bool_decide (-1 < n) && bool_decide (n ≤ MAX_SAFE_INTEGER)
  | _ => false
  end.

Definition isArrayLike (v : JsValue) : bool :=
  match v with
  | JStr _ | JArr _ => true
  | JObj fields => isLength (get_value "length" fields)
  | _ => false
  end.

Definition isEmpty (v : JsValue) : bool :=
  match v with
  | JUndefined | JNull => true
  | JStr s => bool_decide (s = "")
  | JArr items => bool_decide (items = [])
  | JObj fields => bool_decide (keys fields = [])
  | JBool _ | JNum _ => true
  end.

End Js.

Import Js.

(** ** The job specification document *)

(** [resourcePerInstance] of a task role. *)
Record ResourcePerInstance : Type := {
  ports : option (gmap string Z);
  resource_other : list (string * JsValue)
}.

Record TaskRoleSpec : Type := {
  commands : option (list string);
  resourcePerInstance : ResourcePerInstance;
  role_other : list (string * JsValue)
}.

Record TensorBoardExtras : Type := {
  randomStr : string;
  logDirectories : list (string * string)
}.

Record Extras : Type := {
  tensorBoard : option TensorBoardExtras;
  paiStorage : option (list string);
  extras_other : list (string * JsValue)
}.

(** [secrets] is a mapping, or a string when the block was redacted. *)
Inductive Secrets : Type :=
| SecretsString (s : string)
| SecretsObject (fields : list (string * JsValue)).

Record JobSpecDocument : Type := {
  name : option string;
  parameters : option (list (string * JsValue));
  taskRoles : list (string * TaskRoleSpec);
  deployments : option (list JsValue);
  prerequisites : option (list JsValue);
  secrets : option Secrets;
  extras : option Extras;
  doc_other : list (string * JsValue)
}.

Definition with_ports (p : option (gmap string Z)) (r : ResourcePerInstance) : ResourcePerInstance :=
  {| ports := p; resource_other := resource_other r |}.

Definition with_commands (c : option (list string)) (t : TaskRoleSpec) : TaskRoleSpec :=
  {| commands := c; resourcePerInstance := resourcePerInstance t; role_other := role_other t |}.

Definition with_resourcePerInstance (r : ResourcePerInstance) (t : TaskRoleSpec) : TaskRoleSpec :=
  {| commands := commands t; resourcePerInstance := r; role_other := role_other t |}.

Definition with_taskRoles (rs : list (string * TaskRoleSpec)) (d : JobSpecDocument) : JobSpecDocument :=
  {| name := name d; parameters := parameters d; taskRoles := rs;
     deployments := deployments d; prerequisites := prerequisites d;
     secrets := secrets d; extras := extras d; doc_other := doc_other d |}.

Definition with_extras (e : option Extras) (d : JobSpecDocument) : JobSpecDocument :=
  {| name := name d; parameters := parameters d; taskRoles := taskRoles d;
     deployments := deployments d; prerequisites := prerequisites d;
     secrets := secrets d; extras := e; doc_other := doc_other d |}.

Definition with_paiStorage (s : option (list string)) (e : Extras) : Extras :=
  {| tensorBoard := tensorBoard e; paiStorage := s; extras_other := extras_other e |}.

(** [protocol.taskRoles[key] = role] *)
Definition set_taskRole (key : string) (role : TaskRoleSpec) (d : JobSpecDocument) : JobSpecDocument :=
  with_taskRoles (set key role (taskRoles d)) d.

(** [protocol.extras && protocol.extras.tensorBoard] *)
Definition tensorBoard_of (d : JobSpecDocument) : option TensorBoardExtras :=
  match extras d with
  | Some e => tensorBoard e
  | None => None
  end.

(** ** The imported modules *)

(** [./constants]: the sentinel lines and key names. *)
Class Constants : Type := {
  CUSTOM_STORAGE_START : string;
  CUSTOM_STORAGE_END : string;
  TEAMWISE_DATA_CMD_START : string;
  TEAMWISE_DATA_CMD_END : string;
  TENSORBOARD_CMD_START : string;
  TENSORBOARD_CMD_END : string;
  TENSORBOARD_LOG_PATH : string;
  AUTO_GENERATE_NOTIFY : string
}.

(** The form model built by [JobBasicInfo.fromProtocol]; [virtualCluster] is
    the only field this module reads or writes. *)
Record JobBasicInfo : Type := {
  virtualCluster : option string;
  info_other : list (string * JsValue)
}.

(** [../models/job-basic-info] and [../models/job-task-role]: the two
    constructors, which build a new value from what they are given. *)
Class Models : Type := {
  JobTaskRole : Type;
  JobBasicInfo_fromProtocol : JobSpecDocument → JobBasicInfo;
  JobTaskRole_fromProtocol :
    string → option TaskRoleSpec → list JsValue → list JsValue → Secrets → JobTaskRole
}.

(** A thrown [TypeError] (a property read on [undefined]). *)
Inductive Completion (A : Type) : Type :=
| Normal (a : A)
| TypeError.
Arguments Normal {A} a.
Arguments TypeError {A}.

Definition HIDE_SECRET : string := "******".

(** ** Strings and arrays of the JavaScript runtime *)

Module JsString.

(** Does [s] start with [pattern]? *)
Fixpoint starts_with (pattern s : string) : bool :=
  match pattern, s with
  | EmptyString, _ => true
  | String a p', String b s' => bool_decide (a = b) && starts_with p' s'
  | String _ _, EmptyString => false
  end.

(** [s] without its first [n] characters. *)
Fixpoint drop (n : nat) (s : string) : string :=
  match n, s with
  | O, _ => s
  | S n', String _ s' => drop n' s'
  | S _, EmptyString => EmptyString
  end.

(** [s.replace(pattern, '')] for a string pattern: the leftmost occurrence
    of [pattern] is deleted, and [s] is returned when there is none. *)
Fixpoint replace_first_empty (pattern s : string) : string :=
  if starts_with pattern s then drop (String.length pattern) s
  else match s with
       | EmptyString => EmptyString
       | String c s' => String c (replace_first_empty pattern s')
       end.

(** [parts.join(sep)] *)
Fixpoint join (sep : string) (parts : list string) : string :=
  match parts with
  | [] => ""
  | [p] => p
  | p :: rest => p +:+ sep +:+ join sep rest
  end.

(** The characters of a string, each as a one-character string. *)
Fixpoint chars (s : string) : list string :=
  match s with
  | EmptyString => []
  | String c s' => String c EmptyString :: chars s'
  end.

End JsString.

Module JsArray.

(** Scan from the element of index [i]; [-1] when the element is missing. *)
Fixpoint indexOf_at (l : list string) (x : string) (i : Z) : Z :=
  match l with
  | [] => -1
  | y :: l' => if decide (y = x) then i else indexOf_at l' x (i + 1)
  end.

(** [l.indexOf(x, fromIndex)] *)
Definition indexOf (l : list string) (x : string) (fromIndex : Z) : Z :=
  let k := if bool_decide (fromIndex < 0)
           then Z.max (Z.of_nat (length l) + fromIndex) 0
           else fromIndex in
  indexOf_at (drop (Z.to_nat k) l) x k.

(** [l.filter((_, index) => keep(index))], the head having index [i]. *)
Fixpoint filter_index {A : Type} (keep : Z → bool) (i : Z) (l : list A) : list A :=
  match l with
  | [] => []
  | x :: l' =>
      if keep i then x :: filter_index keep (i + 1) l'
      else filter_index keep (i + 1) l'
  end.

(** [l.find(pred)] *)
Definition find {A : Type} (pred : A → bool) (l : list A) : option A :=
  List.find pred l.

End JsArray.

(** ** The functions of [utils.js] *)

Record KeyValue : Type := { key : string; value : JsValue }.

Record Context : Type := { vcNames : option (list string) }.

Record MountConfig : Type := { config_name : string }.

(** The job-data provider of [populateProtocolWithDataAndTensorboard];
    [generateDataCommands] stands for the awaited result of the call. *)
Record JobData : Type := {
  containData : bool;
  generateDataCommands : string → string → list string;
  selectedConfigs : list MountConfig
}.

Module Utils.
Section WithImports.
Context {constants : Constants} {models : Models}.

Definition removeEmptyProperties (obj : JsValue) : JsValue :=
  if negb (isObject obj) then JUndefined
  else
    let newObj := spread obj in
    JObj (forEach (keys newObj) (λ key newObj,
      let onCheckingElement := get_value key newObj in
      if negb (isEmpty onCheckingElement) then newObj
      else if negb (isObject onCheckingElement)
              && negb (isArrayLike onCheckingElement)
              && negb (isNil onCheckingElement)
      then newObj
      else remove key newObj) newObj).

Definition removePathPrefix (path prefix : string) : string :=
  JsString.replace_first_empty prefix path.

Definition addPathPrefix (path prefix : string) : string :=
  prefix +:+ path.

Definition populateComponents (jobInformation : JobBasicInfo) (context : Context) : JobBasicInfo :=
  let virtualCluster := virtualCluster jobInformation in
  let reset := {| virtualCluster := Some "default"; info_other := info_other jobInformation |} in
  match vcNames context with
  | None | Some [] => reset
  | Some names =>
      match JsArray.find (λ vcName, bool_decide (Some vcName = virtualCluster)) names with
      | None => reset
      | Some _ => jobInformation
      end
  end.

Definition removeTagSection (commands : list string) (beginTag endTag : string) : list string :=
  let beginTagIndex := JsArray.indexOf commands beginTag 0 in
  let endTagIndex := JsArray.indexOf commands endTag (beginTagIndex + 1) in
  if negb (bool_decide (beginTagIndex = -1)) && negb (bool_decide (endTagIndex = -1))
  then JsArray.filter_index
         (λ index, bool_decide (index < beginTagIndex) || bool_decide (index > endTagIndex))
         0 commands
  else commands.

(** The section the scan is after, in the words of the specification: the
    first [beginTag] and the first [endTag] strictly after it, by index. *)
Definition find_section (commands : list string) (beginTag endTag : string) : option (nat * nat) :=
  match list_find (λ c, c = beginTag) commands with
  | Some (i, _) =>
      match list_find (λ c, c = endTag) (drop (S i) commands) with
      | Some (j, _) => Some (i, (S i + j)%nat)
      | None => None
      end
  | None => None
  end.

Definition tensorBoardPort_of (randomStr : string) : string :=
  "tensorBoardPort_" +:+ randomStr.

(** The body of the loop over the task roles of
    [removeAutoGeneratedCodeFromProtocolTaskRoles]. *)
Definition removeAutoGeneratedCode_role (tensorBoardPort : option string) (taskRole : TaskRoleSpec) : TaskRoleSpec :=
  let commands := or_default (commands taskRole) [] in
  if bool_decide (commands = []) then taskRole
  else
    let commands := removeTagSection commands CUSTOM_STORAGE_START CUSTOM_STORAGE_END in
    let commands := removeTagSection commands TEAMWISE_DATA_CMD_START TEAMWISE_DATA_CMD_END in
    let commands := removeTagSection commands TENSORBOARD_CMD_START TENSORBOARD_CMD_END in
    let taskRole :=
      match tensorBoardPort with
      | Some tensorBoardPort =>
          match ports (resourcePerInstance taskRole) with
          | Some ports =>
              match ports !! tensorBoardPort with
              | Some _ =>
                  with_resourcePerInstance
                    (with_ports (Some (delete tensorBoardPort ports)) (resourcePerInstance taskRole))
                    taskRole
              | None => taskRole
              end
          | None => taskRole
          end
      | None => taskRole
      end in
    with_commands (Some commands) taskRole.

Definition removeAutoGeneratedCodeFromProtocolTaskRoles (protocol : JobSpecDocument) : JobSpecDocument :=
  let tensorBoardPort :=
    match tensorBoard_of protocol with
    | Some tensorBoardExtras => Some (tensorBoardPort_of (randomStr tensorBoardExtras))
    | None => None
    end in
  forEach (keys (taskRoles protocol)) (λ taskRoleKey protocol,
    match get taskRoleKey (taskRoles protocol) with
    | Some taskRole =>
        set_taskRole taskRoleKey (removeAutoGeneratedCode_role tensorBoardPort taskRole) protocol
    | None => protocol
    end) protocol.

(** [protocol.taskRoles[key].field = ...]: a write through the role found
    at [key]; the keys this module writes through come from [Object.keys]. *)
Definition update_taskRole (key : string) (f : TaskRoleSpec → TaskRoleSpec) (protocol : JobSpecDocument) : JobSpecDocument :=
  match get key (taskRoles protocol) with
  | Some taskRole => set_taskRole key (f taskRole) protocol
  | None => protocol
  end.

Definition addPreCommandsToProtocolTaskRoles (protocol : JobSpecDocument) (preCommands : list string) : JobSpecDocument :=
  forEach (keys (taskRoles protocol)) (λ taskRoleKey protocol,
    update_taskRole taskRoleKey (λ taskRole,
      let commands := preCommands ++ or_default (commands taskRole) [] in
      with_commands (Some commands) taskRole) protocol) protocol.

(** The four generated lines of the TensorBoard section. *)
Definition tensorBoardCommands_of (tensorBoardExtras : TensorBoardExtras) : list string :=
  let randomStr := randomStr tensorBoardExtras in
  let logDirectories := logDirectories tensorBoardExtras in
  let tensorBoardPort := tensorBoardPort_of randomStr in
  let portList := "--port=$PAI_CONTAINER_HOST_" +:+ tensorBoardPort +:+ "_PORT_LIST" in
  let logPathList :=
    forEach (keys logDirectories) (λ key logPathList,
      logPathList ++ [key +:+ ":" +:+ or_default (get key logDirectories) "undefined"]) [] in
  let logPath := JsString.join "," logPathList in
  [ TENSORBOARD_CMD_START;
    AUTO_GENERATE_NOTIFY;
    "(tensorboard --logdir=" +:+ logPath +:+ " " +:+ portList +:+ " &)";
    TENSORBOARD_CMD_END ].

Definition addTensorBoardCommandsToProtocolTaskRoles (protocol : JobSpecDocument) : Completion JobSpecDocument :=
  match tensorBoard_of protocol with
  | Some tensorBoardExtras =>
      let tensorBoardPort := tensorBoardPort_of (randomStr tensorBoardExtras) in
      let tensorBoardCommands := tensorBoardCommands_of tensorBoardExtras in
      match head (keys (taskRoles protocol)) with
      | None => TypeError
      | Some firstTaskRole =>
          match get firstTaskRole (taskRoles protocol) with
          | None => TypeError
          | Some taskRole =>
              let commands := tensorBoardCommands ++ or_default (commands taskRole) [] in
              let protocol :=
                update_taskRole firstTaskRole (with_commands (Some commands)) protocol in
              let ports :=
                match get firstTaskRole (taskRoles protocol) with
                | Some taskRole => or_default (ports (resourcePerInstance taskRole)) ∅
                | None => ∅
                end in
              let ports := <[tensorBoardPort := 1]> ports in
              Normal (update_taskRole firstTaskRole (λ taskRole,
                        with_resourcePerInstance
                          (with_ports (Some ports) (resourcePerInstance taskRole)) taskRole)
                        protocol)
          end
      end
  | None => Normal protocol
  end.

Definition populateProtocolWithDataAndTensorboard (user : string) (protocol : JobSpecDocument) (jobData : JobData) : Completion JobSpecDocument :=
  match addTensorBoardCommandsToProtocolTaskRoles protocol with
  | TypeError => TypeError
  | Normal protocol =>
      if negb (containData jobData) then Normal protocol
      else
        let preCommands := generateDataCommands jobData user (or_default (name protocol) "") in
        let protocol := addPreCommandsToProtocolTaskRoles protocol preCommands in
        match extras protocol with
        | Some e =>
            let names :=
              if bool_decide (selectedConfigs jobData = []) then []
              else config_name <$> selectedConfigs jobData in
            Normal (with_extras (Some (with_paiStorage (Some names) e)) protocol)
        | None => Normal protocol
        end
  end.

(** What [getJobComponentsFromConfig] returns for a document. *)
Record Components : Type := {
  updatedJobInformation : JobBasicInfo;
  updatedTaskRoles : list JobTaskRole;
  updatedParameters : list KeyValue;
  updatedSecrets : list KeyValue;
  updatedExtras : Extras
}.

(** A call of [getJobComponentsFromConfig]: the returned value ([None] for
    [undefined]), the passed-in document as the call leaves it, and the
    messages given to [alert]. *)
Record Outcome : Type := {
  returned : option Components;
  config_after : Nullable JobSpecDocument;
  alerts : list string
}.

Definition SECRETS_WARNING : string :=
  "WARNING: The secrets in the imported job config have been removed. You need to fill in the missing values manually or the job may not work as you expected.".

(** [jobConfig.secrets || {}]: the empty string is falsy. *)
Definition secrets_or_empty (s : option Secrets) : Secrets :=
  match s with
  | None | Some (SecretsString EmptyString) => SecretsObject []
  | Some s => s
  end.

(** [secrets === str]: an object is never strictly equal to a string. *)
Definition secrets_is (s : Secrets) (str : string) : bool :=
  match s with
  | SecretsString s => bool_decide (s = str)
  | SecretsObject _ => false
  end.

(** [Object.entries(secrets)] *)
Definition secrets_entries (s : Secrets) : list (string * JsValue) :=
  match s with
  | SecretsObject fields => (λ k, (k, get_value k fields)) <$> keys fields
  | SecretsString str =>
      zip (index_keys (String.length str)) (JStr <$> JsString.chars str)
  end.

Definition empty_extras : Extras :=
  {| tensorBoard := None; paiStorage := None; extras_other := [] |}.

Definition getJobComponentsFromConfig (jobConfig : Nullable JobSpecDocument) (context : Context) : Outcome :=
  match jobConfig with
  | Undefined | Null =>
      {| returned := None; config_after := jobConfig; alerts := [] |}
  | Present jobConfig =>
      let jobConfig := removeAutoGeneratedCodeFromProtocolTaskRoles jobConfig in
      let parameters := or_default (parameters jobConfig) [] in
      let taskRoles := taskRoles jobConfig in
      let deployments := or_default (deployments jobConfig) [] in
      let prerequisites := or_default (prerequisites jobConfig) [] in
      let secrets := secrets_or_empty (secrets jobConfig) in
      let extras := or_default (extras jobConfig) empty_extras in
      let updatedJobInformation := JobBasicInfo_fromProtocol jobConfig in
      let updatedParameters :=
        (λ key, {| key := key; value := get_value key parameters |}) <$> keys parameters in
      let '(updatedSecrets, alerts) :=
        if secrets_is secrets HIDE_SECRET then ([], [SECRETS_WARNING])
        else ((λ '(key, value), {| key := key; value := value |}) <$> secrets_entries secrets, []) in
      let updatedTaskRoles :=
        (λ name, JobTaskRole_fromProtocol name (get name taskRoles)
                   deployments prerequisites secrets) <$> keys taskRoles in
      let updatedExtras := extras in
      let updatedJobInformation := populateComponents updatedJobInformation context in
      {| returned := Some {| updatedJobInformation := updatedJobInformation;
                             updatedTaskRoles := updatedTaskRoles;
                             updatedParameters := updatedParameters;
                             updatedSecrets := updatedSecrets;
                             updatedExtras := updatedExtras |};
         config_after := Present jobConfig;
         alerts := alerts |}
  end.

(** The counter of [createUniqueName] is a double that holds an integer; the
    model is of the integers from [-2^53] to [2^53], which a double holds
    exactly and prints in decimal. *)
Definition EXACT_LIMIT : Z := 9007199254740992.

(** [index + 1] as [index++] computes it: exact below [2^53], while
    [2^53 + 1] rounds back to [2^53], so that the counter stays there. *)
Definition increment (index : Z) : Z :=
  if bool_decide (index < EXACT_LIMIT) then index + 1 else index.

(** The candidate name [namePrefix_index]. *)
Definition candidate_name (namePrefix : string) (index : Z) : string :=
  namePrefix +:+ "_" +:+ pretty index.

(** The condition of the [while] loop: the found element, a string, is
    truthy unless it is empty. *)
Definition name_is_used (usedNames : list string) (name : string) : bool :=
  match JsArray.find (λ usedName, bool_decide (usedName = name)) usedNames with
  | Some found => negb (bool_decide (found = ""))
  | None => false
  end.

(** The [while] loop of [createUniqueName], entered with the current [name]
    and the already incremented [index]; [fuel] bounds the iterations. *)
Fixpoint createUniqueName_loop (fuel : nat) (usedNames : list string) (namePrefix name : string) (index : Z) : option (string * Z) :=
  match fuel with
  | O => None
  | S fuel' =>
      if name_is_used usedNames name
      then createUniqueName_loop fuel' usedNames namePrefix
             (candidate_name namePrefix index) (increment index)
      else Some (name, index)
  end.

Definition createUniqueName (fuel : nat) (usedNames : list string) (namePrefix : string) (startindex : Z) : option (string * Z) :=
  let index := startindex in
  let name := candidate_name namePrefix index in
  createUniqueName_loop fuel usedNames namePrefix name (increment index).

(** *** Vocabulary of the specification *)

(** A command list holds no well-formed generated section: for none of the
    three sentinel pairs does the scan find a begin with an end after it. *)
Definition no_generated_section (commands : list string) : Prop :=
  find_section commands CUSTOM_STORAGE_START CUSTOM_STORAGE_END = None ∧
  find_section commands TEAMWISE_DATA_CMD_START TEAMWISE_DATA_CMD_END = None ∧
  find_section commands TENSORBOARD_CMD_START TENSORBOARD_CMD_END = None.

(** The port map of a role, when it has one, has no entry for the port. *)
Definition no_generated_port (tensorBoardPort : string) (taskRole : TaskRoleSpec) : Prop :=
  ∀ p, ports (resourcePerInstance taskRole) = Some p → p !! tensorBoardPort = None.

(** The port identifier the document generates, when it declares the
    TensorBoard extras. *)
Definition generated_port (protocol : JobSpecDocument) : option string :=
  tensorBoardPort_of ∘ randomStr <$> tensorBoard_of protocol.

(** The strip pass has nothing to do in a role: no well-formed generated
    section, and no entry of the generated port where the pass would look
    for one (the roles with a non-empty command list). *)
Definition role_clean (tensorBoardPort : option string) (taskRole : TaskRoleSpec) : Prop :=
  no_generated_section (or_default (commands taskRole) []) ∧
  (or_default (commands taskRole) [] ≠ [] →
   ∀ port, tensorBoardPort = Some port → no_generated_port port taskRole).

(** A command list without the section of a sentinel pair, in the words of
    the specification: the lines from the first [beginTag] to the first
    [endTag] after it are left out, and nothing is when there is no such
    pair of lines. *)
Definition without_section (commands : list string) (beginTag endTag : string) : list string :=
  match find_section commands beginTag endTag with
  | Some (i, j) => take i commands ++ drop (S j) commands
  | None => commands
  end.

(** The three kinds of section left out in turn: custom storage, teamwise
    data, TensorBoard. *)
Definition without_generated_sections (commands : list string) : list string :=
  without_section
    (without_section
       (without_section commands CUSTOM_STORAGE_START CUSTOM_STORAGE_END)
       TEAMWISE_DATA_CMD_START TEAMWISE_DATA_CMD_END)
    TENSORBOARD_CMD_START TENSORBOARD_CMD_END.

(** The generated TensorBoard block is delimited by its own sentinels only:
    the begin sentinels of the other two kinds are not among its four lines,
    and its end sentinel is neither the notice line nor the launch line. *)
Definition block_delimited (tensorBoardExtras : TensorBoardExtras) : Prop :=
  (CUSTOM_STORAGE_START ∉ tensorBoardCommands_of tensorBoardExtras) ∧
  (TEAMWISE_DATA_CMD_START ∉ tensorBoardCommands_of tensorBoardExtras) ∧
  (tensorBoardCommands_of tensorBoardExtras !! 1%nat) ≠ Some TENSORBOARD_CMD_END ∧
  (tensorBoardCommands_of tensorBoardExtras !! 2%nat) ≠ Some TENSORBOARD_CMD_END.

(** A container, as lodash sees it: an object, an array, or a string, which
    is array-like. *)
Definition is_container (v : JsValue) : bool :=
  match v with JStr _ | JArr _ | JObj _ => true | _ => false end.

Definition is_empty_container (v : JsValue) : bool :=
  match v with
  | JStr EmptyString | JArr [] | JObj [] => true
  | _ => false
  end.

(** Empty-like: an empty container, [null] or [undefined]. *)
Definition empty_like (v : JsValue) : bool :=
  is_empty_container v || isNil v.

(** A primitive that is neither a container nor nil: a number or a boolean. *)
Definition plain_primitive (v : JsValue) : bool :=
  negb (is_container v) && negb (isNil v).

(** The keys the specification has [removeEmptyProperties] drop. *)
Definition dropped_by_spec (v : JsValue) : bool :=
  empty_like v && negb (plain_primitive v).

End WithImports.
End Utils.

(** ** The other helpers of [utils.js]

    [getFileNameFromHttp], [getProjectNameFromGit], [getFolderNameFromHDFS],
    [getHostNameFromUrl], [getPortFromUrl] and [dispatchResizeEvent] are
    single calls into the platform ([path.basename], [URL], the timer and the
    window) and are left out. *)

Module Helpers.
Section WithImports.
Context {constants : Constants}.

(** [{ ...acc, ...cur }]: the properties of [acc] in their order, each
    property of [cur] written over them in turn. *)
Definition keyValueArrayReducer {V : Type} (acc cur : list (string * V)) : list (string * V) :=
  fold_left (λ o kv, set kv.1 kv.2 o) cur acc.

(** [objects.reduce(keyValueArrayReducer, init)] *)
Definition reduce_keyValueArray {V : Type} (objects : list (list (string * V))) (init : list (string * V)) : list (string * V) :=
  fold_left keyValueArrayReducer objects init.

(** Truthiness of a value. *)
Definition truthy (v : JsValue) : bool :=
  match v with
  | JUndefined | JNull => false
  | JBool b => b
  | JNum n => negb (bool_decide (n = 0))
  | JStr s => negb (bool_decide (s = ""))
  | JArr _ | JObj _ => true
  end.

(** The own properties of a value that is not nil: those of an object, the
    elements and the [length] of an array or of a string; a number or a
    boolean has none. *)
Definition own_properties (v : JsValue) : list (string * JsValue) :=
  match v with
  | JObj fields => fields
  | JArr items =>
      zip (index_keys (length items)) items
        ++ [("length", JNum (Z.of_nat (length items)))]
  | JStr s =>
      zip (index_keys (String.length s)) (JStr <$> JsString.chars s)
        ++ [("length", JNum (Z.of_nat (String.length s)))]
  | _ => []
  end.

(** [Object.getOwnPropertyNames(v)] *)
Definition getOwnPropertyNames (v : JsValue) : list string :=
  keys (own_properties v).

(** [v.name] for a name no prototype defines, as [randomStr] and
    [logDirectories] are: the own property, or [undefined]. *)
Definition own_property (v : JsValue) (name : string) : JsValue :=
  get_value name (own_properties v).

(** [v === str] for a string [str] *)
Definition is_string (v : JsValue) (str : string) : bool :=
  match v with
  | JStr s => bool_decide (s = str)
  | _ => false
  end.

(** The updated record is whatever the editor hands over, a value; of the
    original only [randomStr] is read.  Reading a property of [null] or
    [undefined] throws. *)
Definition isValidUpdatedTensorBoardExtras (originalTensorBoardExtras : TensorBoardExtras) (updatedTensorBoardExtras : JsValue) : Completion bool :=
  if isNil updatedTensorBoardExtras then TypeError
  else if negb (is_string (own_property updatedTensorBoardExtras "randomStr")
                  (randomStr originalTensorBoardExtras))
  then Normal false
  else if negb (truthy (own_property updatedTensorBoardExtras "logDirectories"))
  then Normal false
  else if negb (bool_decide (length (getOwnPropertyNames updatedTensorBoardExtras) = 2%nat))
  then Normal false
  else if bool_decide
            (length (getOwnPropertyNames
                       (own_property updatedTensorBoardExtras "logDirectories")) = 0%nat)
  then Normal false
  else Normal true.

(** A TensorBoard extras record as the value the editor shows. *)
Definition tensorBoardExtras_value (tensorBoardExtras : TensorBoardExtras) : JsValue :=
  JObj [("randomStr", JStr (randomStr tensorBoardExtras));
        ("logDirectories",
         JObj ((λ kp, (kp.1, JStr kp.2)) <$> logDirectories tensorBoardExtras))].

(** [generateDefaultTensorBoardExtras], given the eight characters drawn
    from [Math.random]. *)
Definition generateDefaultTensorBoardExtras (randomStr : string) : TensorBoardExtras :=
  {| randomStr := randomStr;
     logDirectories := [("default", TENSORBOARD_LOG_PATH)] |}.

(** A key that is an array index starts with a digit.  The objects merged
    here are keyed by names, and the order of their keys is the order of
    insertion when no key starts with a digit. *)
Definition starts_with_digit (k : string) : bool :=
  match k with
  | String c _ => match Ascii.is_nat c with Some _ => true | None => false end
  | EmptyString => false
  end.

Definition named_keys {V : Type} (o : list (string * V)) : Prop :=
  Forall (λ k, starts_with_digit k = false) (keys o).

(** Generated commands that are nothing, or one section: the begin
    sentinel, lines without the end sentinel, the end sentinel. *)
Definition data_section (beginTag endTag : string) (commands : list string) : Prop :=
  commands = [] ∨
  ∃ body, commands = beginTag :: body ++ [endTag] ∧ endTag ∉ body.

(** The data commands a provider generates: a custom-storage section and a
    teamwise-data section, each of which may be missing. *)
Definition data_commands (preCommands : list string) : Prop :=
  ∃ custom teamwise,
    preCommands = custom ++ teamwise ∧
    data_section CUSTOM_STORAGE_START CUSTOM_STORAGE_END custom ∧
    data_section TEAMWISE_DATA_CMD_START TEAMWISE_DATA_CMD_END teamwise ∧
    (CUSTOM_STORAGE_START ∉ teamwise).

End WithImports.
End Helpers.

(** ** Calls with a property or an argument missing

    The functions above are on job documents that have their [taskRoles] and
    on a present original record.  What the source does without them, it does
    by throwing: [getJobComponentsFromConfig] hands the configuration to the strip
    pass (line 93) before any of its guards, and the strip pass calls
    [Object.keys(protocol.taskRoles)] (line 237), which throws for a
    configuration without [taskRoles]; [isValidUpdatedTensorBoardExtras] reads
    [randomStr] from both arguments (lines 301-302) before it compares. *)

Module Loose.
Section WithImports.
Context {constants : Constants} {models : Models}.

(** A job configuration as a caller may pass it: the properties of a job
    document, of which [taskRoles] may be missing.  The roles it has are
    records as in the data model. *)
Record JobConfig : Type := {
  config_name : option string;
  config_parameters : option (list (string * JsValue));
  config_taskRoles : option (list (string * TaskRoleSpec));
  config_deployments : option (list JsValue);
  config_prerequisites : option (list JsValue);
  config_secrets : option Secrets;
  config_extras : option Extras;
  config_other : list (string * JsValue)
}.

(** The configuration of a job document. *)
Definition of_document (d : JobSpecDocument) : JobConfig :=
  {| config_name := name d; config_parameters := parameters d;
     config_taskRoles := Some (taskRoles d); config_deployments := deployments d;
     config_prerequisites := prerequisites d; config_secrets := secrets d;
     config_extras := extras d; config_other := doc_other d |}.

(** The job document a configuration is, when it has its [taskRoles]. *)
Definition as_document (jobConfig : JobConfig) : option JobSpecDocument :=
  match config_taskRoles jobConfig with
  | Some roles =>
      Some {| name := config_name jobConfig; parameters := config_parameters jobConfig;
              taskRoles := roles; deployments := config_deployments jobConfig;
              prerequisites := config_prerequisites jobConfig;
              secrets := config_secrets jobConfig; extras := config_extras jobConfig;
              doc_other := config_other jobConfig |}
  | None => None
  end.

(** [getJobComponentsFromConfig] on any configuration.  Line 93 runs the
    strip pass before the defaults of lines 94 to 99 are taken, and the
    [Object.keys(protocol.taskRoles)] of the pass (line 237) throws a
    [TypeError] on a missing [taskRoles]: nothing is changed, returned or
    given to [alert] then. *)
Definition getJobComponentsFromConfig (jobConfig : Nullable JobConfig) (context : Context) : Completion Utils.Outcome :=
  match jobConfig with
  | Undefined => Normal (Utils.getJobComponentsFromConfig Undefined context)
  | Null => Normal (Utils.getJobComponentsFromConfig Null context)
  | Present jobConfig =>
      match as_document jobConfig with
      | None => TypeError
      | Some document => Normal (Utils.getJobComponentsFromConfig (Present document) context)
      end
  end.

(** [isValidUpdatedTensorBoardExtras] with an original that may be [null] or
    [undefined]: [updated.randomStr] is read first, then [original.randomStr]. *)
Definition isValidUpdatedTensorBoardExtras (originalTensorBoardExtras : Nullable TensorBoardExtras) (updatedTensorBoardExtras : JsValue) : Completion bool :=
  if isNil updatedTensorBoardExtras then TypeError
  else match originalTensorBoardExtras with
       | Undefined | Null => TypeError
       | Present original =>
           Helpers.isValidUpdatedTensorBoardExtras original updatedTensorBoardExtras
       end.

End WithImports.
End Loose.

(** ** Sample imports

    Sentinel lines in the style of [./constants], all distinct comment lines,
    and two small constructors, to evaluate the functions on concrete
    documents. *)

Module Sample.

Definition constants : Constants := {|
  CUSTOM_STORAGE_START := "#CUSTOM_STORAGE_START";
  CUSTOM_STORAGE_END := "#CUSTOM_STORAGE_END";
  TEAMWISE_DATA_CMD_START := "#TEAMWISE_STORAGE_START";
  TEAMWISE_DATA_CMD_END := "#TEAMWISE_STORAGE_END";
  TENSORBOARD_CMD_START := "#TENSORBOARD_CMD_START";
  TENSORBOARD_CMD_END := "#TENSORBOARD_CMD_END";
  TENSORBOARD_LOG_PATH := "/mnt/tensorboard";
  AUTO_GENERATE_NOTIFY := "#Auto generated code, please do not modify"
|}.

(** A job-info constructor that reads the virtual cluster from the
    [virtualCluster] property of the document, and a task-role constructor
    that keeps the name and the commands of the role. *)
Definition models : Models := {|
  JobTaskRole := string * list string;
  JobBasicInfo_fromProtocol := λ d,
    {| virtualCluster :=
         match get "virtualCluster" (doc_other d) with
         | Some (JStr vc) => Some vc
         | _ => None
         end;
       info_other := [] |};
  JobTaskRole_fromProtocol := λ name role _ _ _,
    (name, match role with Some r => or_default (commands r) [] | None => [] end)
|}.

Definition resources (p : option (gmap string Z)) : ResourcePerInstance :=
  {| ports := p; resource_other := [("cpu", JNum 1)] |}.

Definition role (c : option (list string)) (p : option (gmap string Z)) : TaskRoleSpec :=
  {| commands := c; resourcePerInstance := resources p; role_other := [] |}.

Definition tensorBoardExtras : TensorBoardExtras :=
  {| randomStr := "ab12cd34"; logDirectories := [("default", "/mnt/tensorboard")] |}.

Definition document (roles : list (string * TaskRoleSpec)) (tb : option TensorBoardExtras) (s : option Secrets) : JobSpecDocument :=
  {| name := Some "job"; parameters := None; taskRoles := roles;
     deployments := None; prerequisites := None; secrets := s;
     extras := Some {| tensorBoard := tb; paiStorage := None; extras_other := [] |};
     doc_other := [("virtualCluster", JStr "vc1")] |}.

End Sample.

(** * Properties *)

(** ** Objects *)

Section ObjectFacts.
Context {V : Type}.
Implicit Types (o : list (string * V)) (k : string) (v : V).

Lemma get_app_fresh k o1 o2 :
  k ∉ keys o1 → get k (o1 ++ o2) = get k o2.
Proof.
  induction o1 as [|[k' v'] o1 IH]; simpl; [done|].
  intros Hk. apply not_elem_of_cons in Hk as [Hne Hk].
  destruct (decide (k' = k)); [congruence|]. by apply IH.
Qed.

Lemma set_app_fresh k v o1 o2 :
  k ∉ keys o1 → set k v (o1 ++ o2) = o1 ++ set k v o2.
Proof.
  induction o1 as [|[k' v'] o1 IH]; simpl; [done|].
  intros Hk. apply not_elem_of_cons in Hk as [Hne Hk].
  destruct (decide (k' = k)); [congruence|]. by rewrite IH.
Qed.

Lemma remove_app_fresh k o1 o2 :
  k ∉ keys o1 → remove k (o1 ++ o2) = o1 ++ remove k o2.
Proof.
  induction o1 as [|[k' v'] o1 IH]; simpl; [done|].
  intros Hk. apply not_elem_of_cons in Hk as [Hne Hk].
  destruct (decide (k' = k)); [congruence|]. by rewrite IH.
Qed.

Lemma get_head k v o : get k ((k, v) :: o) = Some v.
Proof. simpl. by rewrite decide_True. Qed.

Lemma set_head k v v' o : set k v' ((k, v) :: o) = (k, v') :: o.
Proof. simpl. by rewrite decide_True. Qed.

Lemma remove_head k v o : remove k ((k, v) :: o) = o.
Proof. simpl. by rewrite decide_True. Qed.

Lemma get_elem_of k v o : NoDup (keys o) → (k, v) ∈ o → get k o = Some v.
Proof.
  induction o as [|[k' v'] o IH]; simpl; intros Hnd Hin.
  - by apply elem_of_nil in Hin.
  - apply NoDup_cons in Hnd as [Hk' Hnd].
    apply elem_of_cons in Hin as [Heq|Hin].
    + simplify_eq. by rewrite decide_True.
    + destruct (decide (k' = k)) as [->|]; [|by apply IH].
      exfalso. apply Hk'. unfold keys. apply list_elem_of_fmap.
      by exists (k, v).
Qed.

(** A loop over the keys of an object that rewrites each property in turn
    rewrites every property once, in place. *)
Lemma forEach_rewrite (f : string → V → V) (seen todo : list (string * V)) :
  NoDup (keys (seen ++ todo)) →
  forEach (keys todo)
    (λ k o, match get k o with Some v => set k (f k v) o | None => o end)
    (seen ++ todo)
  = seen ++ ((λ kv, (kv.1, f kv.1 kv.2)) <$> todo).
Proof.
  revert seen. induction todo as [|[k v] todo IH]; intros seen Hnd; [done|].
  unfold forEach in *. simpl.
  assert (k ∉ keys seen) as Hk.
  { unfold keys in *. rewrite fmap_app in Hnd.
    apply NoDup_app in Hnd as (_ & Hnd & _).
    intros Hin. apply (Hnd _ Hin). simpl. by left. }
  rewrite (get_app_fresh _ _ _ Hk), get_head, (set_app_fresh _ _ _ _ Hk), set_head.
  replace (seen ++ (k, f k v) :: todo) with ((seen ++ [(k, f k v)]) ++ todo)
    by by rewrite <- app_assoc.
  rewrite IH.
  - by rewrite <- app_assoc.
  - unfold keys in *. rewrite <- app_assoc. simpl.
    by rewrite !fmap_app in *.
Qed.

End ObjectFacts.

(** ** Arrays *)

Lemma indexOf_at_list_find (l : list string) (x : string) (i : Z) :
  JsArray.indexOf_at l x i =
  match list_find (λ c, c = x) l with
  | Some (n, _) => i + Z.of_nat n
  | None => -1
  end.
Proof.
  revert i. induction l as [|y l IH]; intros i; simpl; [done|].
  destruct (decide (y = x)) as [->|Hne].
  - simpl. lia.
  - rewrite IH. destruct (list_find _ l) as [[n c]|]; simpl; lia.
Qed.

Lemma indexOf_list_find (l : list string) (x : string) (k : nat) :
  JsArray.indexOf l x (Z.of_nat k) =
  match list_find (λ c, c = x) (drop k l) with
  | Some (n, _) => Z.of_nat (k + n)
  | None => -1
  end.
Proof.
  unfold JsArray.indexOf. rewrite bool_decide_false by lia.
  rewrite Nat2Z.id, indexOf_at_list_find.
  destruct (list_find _ _) as [[n c]|]; lia.
Qed.

Lemma filter_index_outside {A : Type} (l : list A) (b e i : Z) :
  b ≤ e + 1 →
  JsArray.filter_index (λ index, bool_decide (index < b) || bool_decide (index > e)) i l
  = take (Z.to_nat (b - i)) l ++ drop (Z.to_nat (e + 1 - i)) l.
Proof.
  intros Hbe. revert i. induction l as [|x l IH]; intros i; simpl.
  - by rewrite take_nil, drop_nil.
  - rewrite IH. destruct (decide (i < b)) as [Hlt|Hge].
    + rewrite bool_decide_true by done. simpl.
      replace (Z.to_nat (b - i)) with (S (Z.to_nat (b - (i + 1)))) by lia.
      replace (Z.to_nat (e + 1 - i)) with (S (Z.to_nat (e + 1 - (i + 1)))) by lia.
      done.
    + rewrite (bool_decide_false (i < b)) by done. simpl.
      replace (Z.to_nat (b - i)) with O by lia.
      replace (Z.to_nat (b - (i + 1))) with O by lia. simpl.
      destruct (decide (i > e)) as [Hgt|Hle].
      * rewrite bool_decide_true by done.
        replace (Z.to_nat (e + 1 - i)) with O by lia.
        replace (Z.to_nat (e + 1 - (i + 1))) with O by lia. done.
      * rewrite bool_decide_false by done.
        replace (Z.to_nat (e + 1 - i)) with (S (Z.to_nat (e + 1 - (i + 1)))) by lia.
        done.
Qed.

(** The scan of the source finds exactly the section of [find_section] and
    removes it, both sentinels included. *)
Lemma removeTagSection_find_section (commands : list string) (beginTag endTag : string) :
  Utils.removeTagSection commands beginTag endTag =
  match Utils.find_section commands beginTag endTag with
  | Some (i, j) => take i commands ++ drop (S j) commands
  | None => commands
  end.
Proof.
  unfold Utils.removeTagSection, Utils.find_section.
  pose proof (indexOf_list_find commands beginTag 0) as Hbegin.
  change (Z.of_nat 0) with 0 in Hbegin. rewrite drop_0 in Hbegin.
  rewrite Hbegin. clear Hbegin.
  destruct (list_find _ commands) as [[i c]|]; [|done].
  replace (Z.of_nat (0 + i) + 1) with (Z.of_nat (S i)) by lia.
  rewrite indexOf_list_find.
  destruct (list_find _ (drop (S i) commands)) as [[j c']|].
  - rewrite !bool_decide_false by lia. cbn [negb andb].
    rewrite filter_index_outside by lia.
    f_equal; f_equal; lia.
  - rewrite (bool_decide_true (-1 = -1)) by done.
    by rewrite andb_false_r.
Qed.

Lemma find_section_Some (commands : list string) (beginTag endTag : string) (i j : nat) :
  Utils.find_section commands beginTag endTag = Some (i, j) ↔
  commands !! i = Some beginTag ∧ (∀ m, (m < i)%nat → commands !! m ≠ Some beginTag) ∧
  (i < j)%nat ∧ commands !! j = Some endTag ∧
  (∀ m, (i < m < j)%nat → commands !! m ≠ Some endTag).
Proof.
  unfold Utils.find_section. split.
  - destruct (list_find _ commands) as [[i' c]|] eqn:Hb; [|done].
    destruct (list_find _ (drop _ _)) as [[j' c']|] eqn:He; [|done].
    intros [= -> <-].
    apply list_find_Some in Hb as (Hi & -> & Hfirst).
    apply list_find_Some in He as (Hj & -> & Hafter).
    rewrite lookup_drop in Hj.
    split_and!; [done| |lia|done|].
    + intros m Hm Hlook. by apply (Hfirst m beginTag).
    + intros m Hm Hlook. apply (Hafter (m - S i)%nat endTag); [|lia|done].
      rewrite lookup_drop. by replace (S i + (m - S i))%nat with m by lia.
  - intros (Hi & Hfirst & Hij & Hj & Hafter).
    assert (list_find (λ c, c = beginTag) commands = Some (i, beginTag)) as ->.
    { apply list_find_Some. split_and!; [done..|].
      intros m y Hy Hm ->. by apply (Hfirst m). }
    assert (list_find (λ c, c = endTag) (drop (S i) commands)
            = Some ((j - S i)%nat, endTag)) as ->.
    { apply list_find_Some. split_and!; [|done|].
      - rewrite lookup_drop. by replace (S i + (j - S i))%nat with j by lia.
      - intros m y Hy Hm ->. rewrite lookup_drop in Hy.
        apply (Hafter (S i + m)%nat); [lia|done]. }
    do 2 f_equal. lia.
Qed.

Lemma find_section_None (commands : list string) (beginTag endTag : string) :
  Utils.find_section commands beginTag endTag = None ↔
  ∀ i j, commands !! i = Some beginTag →
         (∀ m, (m < i)%nat → commands !! m ≠ Some beginTag) →
         commands !! j = Some endTag → (j ≤ i)%nat.
Proof.
  split.
  - intros Hnone i j Hi Hfirst Hj.
    destruct (decide (j ≤ i)%nat) as [|Hlt]; [done|]. exfalso.
    (* the first end sentinel after [i] closes a section *)
    assert (∃ j', (i < j')%nat ∧ commands !! j' = Some endTag ∧
                  ∀ m, (i < m < j')%nat → commands !! m ≠ Some endTag) as (j' & ? & ? & ?).
    { assert (is_Some (list_find (λ c, c = endTag) (drop (S i) commands))) as [[n c] Hn].
      { apply list_find_elem_of with endTag; [|done].
        apply list_elem_of_lookup. exists (j - S i)%nat.
        rewrite lookup_drop. by replace (S i + (j - S i))%nat with j by lia. }
      apply list_find_Some in Hn as (Hn & -> & Hafter). rewrite lookup_drop in Hn.
      exists (S i + n)%nat. split_and!; [lia|done|].
      intros m Hm Hlook. apply (Hafter (m - S i)%nat endTag); [|lia|done].
      rewrite lookup_drop. by replace (S i + (m - S i))%nat with m by lia. }
    assert (Utils.find_section commands beginTag endTag = Some (i, j')) as Hsome
      by by apply find_section_Some.
    congruence.
  - intros Hno. destruct (Utils.find_section _ _ _) as [[i j]|] eqn:Hsec; [|done].
    apply find_section_Some in Hsec as (Hi & Hfirst & Hij & Hj & _).
    specialize (Hno i j Hi Hfirst Hj). lia.
Qed.

(** ** The strip pass over a document *)

Section StripPass.
Context {constants : Constants} {models : Models}.

Lemma with_taskRoles_id (d : JobSpecDocument) : with_taskRoles (taskRoles d) d = d.
Proof. by destruct d. Qed.

Lemma with_commands_id (r : TaskRoleSpec) (c : option (list string)) :
  commands r = c → with_commands c r = r.
Proof. intros <-. by destruct r. Qed.

(** A loop that writes through [protocol.taskRoles[key]] only touches the
    [taskRoles] object of the document. *)
Lemma forEach_taskRoles (f : TaskRoleSpec → TaskRoleSpec) (ks : list string) (d : JobSpecDocument) :
  forEach ks (λ k p, Utils.update_taskRole k f p) d
  = with_taskRoles
      (forEach ks (λ k o, match get k o with Some v => set k (f v) o | None => o end)
         (taskRoles d)) d.
Proof.
  revert d. unfold forEach.
  induction ks as [|k ks IH]; intros d; simpl; [by rewrite with_taskRoles_id|].
  rewrite IH. unfold Utils.update_taskRole.
  destruct (get k (taskRoles d)); [|done]. by destruct d.
Qed.

Lemma forEach_taskRoles_map (f : TaskRoleSpec → TaskRoleSpec) (d : JobSpecDocument) :
  NoDup (keys (taskRoles d)) →
  forEach (keys (taskRoles d)) (λ k p, Utils.update_taskRole k f p) d
  = with_taskRoles ((λ kr, (kr.1, f kr.2)) <$> taskRoles d) d.
Proof.
  intros Hnd. rewrite forEach_taskRoles. f_equal.
  by apply (forEach_rewrite (λ _, f) []).
Qed.

Lemma generated_port_unfold (d : JobSpecDocument) :
  match tensorBoard_of d with
  | Some tb => Some (Utils.tensorBoardPort_of (randomStr tb))
  | None => None
  end = Utils.generated_port d.
Proof. unfold Utils.generated_port. by destruct (tensorBoard_of d). Qed.

(** With unique keys, the strip pass rewrites every role once. *)
Lemma strip_map (d : JobSpecDocument) :
  NoDup (keys (taskRoles d)) →
  Utils.removeAutoGeneratedCodeFromProtocolTaskRoles d
  = with_taskRoles
      ((λ kr, (kr.1, Utils.removeAutoGeneratedCode_role (Utils.generated_port d) kr.2))
         <$> taskRoles d) d.
Proof.
  intros Hnd. unfold Utils.removeAutoGeneratedCodeFromProtocolTaskRoles.
  rewrite generated_port_unfold.
  by apply (forEach_taskRoles_map
              (Utils.removeAutoGeneratedCode_role (Utils.generated_port d))).
Qed.

(** The strip pass changes nothing but the [taskRoles] object. *)
Lemma strip_frame (d : JobSpecDocument) :
  ∃ roles, Utils.removeAutoGeneratedCodeFromProtocolTaskRoles d = with_taskRoles roles d.
Proof.
  unfold Utils.removeAutoGeneratedCodeFromProtocolTaskRoles.
  rewrite generated_port_unfold.
  eexists. apply (forEach_taskRoles
                    (Utils.removeAutoGeneratedCode_role (Utils.generated_port d))).
Qed.

Lemma strip_role_commands (port : option string) (r : TaskRoleSpec) :
  Utils.no_generated_section (or_default (commands r) []) →
  commands (Utils.removeAutoGeneratedCode_role port r) = commands r.
Proof.
  intros (Hcs & Htw & Htb). unfold Utils.removeAutoGeneratedCode_role.
  destruct (commands r) as [c|] eqn:Hc; simpl in *; [|by rewrite Hc].
  case_bool_decide; [by rewrite Hc|]. simpl.
  rewrite (removeTagSection_find_section c), Hcs.
  rewrite (removeTagSection_find_section c), Htw.
  by rewrite (removeTagSection_find_section c), Htb.
Qed.

Lemma strip_role_clean (port : option string) (r : TaskRoleSpec) :
  Utils.role_clean port r → Utils.removeAutoGeneratedCode_role port r = r.
Proof.
  intros [Hsec Hport].
  pose proof (strip_role_commands port r Hsec) as Hcmd.
  unfold Utils.removeAutoGeneratedCode_role in *.
  destruct (commands r) as [c|] eqn:Hc; simpl in *; [|done].
  case_bool_decide as Hnil; [done|].
  specialize (Hport Hnil).
  destruct port as [port|].
  - destruct (ports (resourcePerInstance r)) as [p|] eqn:Hp.
    + rewrite (Hport port eq_refl p Hp) in *.
      simpl in Hcmd. injection Hcmd as Hcmd. rewrite Hcmd. by apply with_commands_id.
    + simpl in Hcmd. injection Hcmd as Hcmd. rewrite Hcmd. by apply with_commands_id.
  - simpl in Hcmd. injection Hcmd as Hcmd. rewrite Hcmd. by apply with_commands_id.
Qed.

Lemma strip_clean (d : JobSpecDocument) :
  NoDup (keys (taskRoles d)) →
  (∀ k r, (k, r) ∈ taskRoles d → Utils.role_clean (Utils.generated_port d) r) →
  Utils.removeAutoGeneratedCodeFromProtocolTaskRoles d = d.
Proof.
  intros Hnd Hclean. rewrite strip_map by done.
  transitivity (with_taskRoles (taskRoles d) d); [|apply with_taskRoles_id].
  f_equal. transitivity (id <$> taskRoles d); [|apply list_fmap_id].
  apply list_fmap_ext. intros i [k r] Hi. simpl. f_equal.
  apply strip_role_clean, (Hclean k). by apply list_elem_of_lookup_2 in Hi.
Qed.

(** C3.  The scan of [removeTagSection] removes a section only when it
    finds the begin sentinel and, strictly after it, the end sentinel; what
    it then removes is the contiguous run from the one to the other, both
    included.  When a sentinel is missing, or the end sentinel occurs only
    at or before the first begin sentinel, the command list is returned as
    it is; the function has no failing case.  Hence the strip pass leaves
    the command list of every role as it is in a document none of whose
    roles holds a well-formed generated section. *)
Theorem removeTagSection_only_well_formed :
  (∀ (commands : list string) (beginTag endTag : string),
     (beginTag ∉ commands ∨ endTag ∉ commands →
      Utils.removeTagSection commands beginTag endTag = commands) ∧
     ((∀ i j, commands !! i = Some beginTag →
              (∀ m, (m < i)%nat → commands !! m ≠ Some beginTag) →
              commands !! j = Some endTag → (j ≤ i)%nat) →
      Utils.removeTagSection commands beginTag endTag = commands) ∧
     (∀ i j, commands !! i = Some beginTag →
             (∀ m, (m < i)%nat → commands !! m ≠ Some beginTag) →
             (i < j)%nat → commands !! j = Some endTag →
             (∀ m, (i < m < j)%nat → commands !! m ≠ Some endTag) →
             Utils.removeTagSection commands beginTag endTag
             = take i commands ++ drop (S j) commands) ∧
     (Utils.removeTagSection commands beginTag endTag ≠ commands →
      ∃ i j, commands !! i = Some beginTag ∧ commands !! j = Some endTag ∧ (i < j)%nat ∧
             Utils.removeTagSection commands beginTag endTag
             = take i commands ++ drop (S j) commands)) ∧
  (∀ d : JobSpecDocument,
     NoDup (keys (taskRoles d)) →
     (∀ k r, (k, r) ∈ taskRoles d →
             Utils.no_generated_section (or_default (commands r) [])) →
     (λ kr, (kr.1, commands kr.2)) <$> taskRoles (Utils.removeAutoGeneratedCodeFromProtocolTaskRoles d)
     = (λ kr, (kr.1, commands kr.2)) <$> taskRoles d).
Proof.
  split.
  - intros commands beginTag endTag.
    assert ((∀ i j, commands !! i = Some beginTag →
                    (∀ m, (m < i)%nat → commands !! m ≠ Some beginTag) →
                    commands !! j = Some endTag → (j ≤ i)%nat) →
            Utils.removeTagSection commands beginTag endTag = commands) as Hnone.
    { intros Hno. apply find_section_None in Hno.
      by rewrite removeTagSection_find_section, Hno. }
    split_and!.
    + intros Hmiss. apply Hnone. intros i j Hi _ Hj. exfalso.
      destruct Hmiss as [Hb|He].
      * apply Hb. by apply list_elem_of_lookup_2 in Hi.
      * apply He. by apply list_elem_of_lookup_2 in Hj.
    + done.
    + intros i j Hi Hfirst Hij Hj Hafter.
      assert (Utils.find_section commands beginTag endTag = Some (i, j)) as Hsec
        by by apply find_section_Some.
      by rewrite removeTagSection_find_section, Hsec.
    + intros Hchanged. rewrite removeTagSection_find_section in *.
      destruct (Utils.find_section _ _ _) as [[i j]|] eqn:Hsec; [|done].
      apply find_section_Some in Hsec as (Hi & _ & Hij & Hj & _).
      by exists i, j.
  - intros d Hnd Hno. rewrite strip_map by done. destruct d as [? ? roles ? ? ? ? ?].
    simpl in *. rewrite <- list_fmap_compose.
    apply list_fmap_ext. intros i [k r] Hi. simpl. f_equal.
    apply strip_role_commands, (Hno k). by apply list_elem_of_lookup_2 in Hi.
Qed.

End StripPass.

Lemma removeTagSection_only_well_formed_witness :
  Utils.removeTagSection ["a"; "#B"; "x"; "#E"; "b"] "#B" "#E" = ["a"; "b"] ∧
  Utils.removeTagSection ["#E"; "#B"; "x"] "#B" "#E" = ["#E"; "#B"; "x"] ∧
  (λ kr, (kr.1, commands kr.2)) <$>
    taskRoles (Utils.removeAutoGeneratedCodeFromProtocolTaskRoles (constants := Sample.constants)
                 (Sample.document
                    [("worker", Sample.role (Some ["#TENSORBOARD_CMD_END"; "python train.py"]) None)]
                    (Some Sample.tensorBoardExtras) None))
  = [("worker", Some ["#TENSORBOARD_CMD_END"; "python train.py"])].
Proof.
  destruct (removeTagSection_only_well_formed (constants := Sample.constants))
    as [Hscan Hdoc].
  split_and!.
  - destruct (Hscan ["a"; "#B"; "x"; "#E"; "b"] "#B" "#E") as (_ & _ & Hfound & _).
    apply (Hfound 1%nat 3%nat); [reflexivity| |lia|reflexivity|].
    + intros [|m] Hm; [discriminate|lia].
    + intros [|[|[|m]]] Hm; try lia; discriminate.
  - destruct (Hscan ["#E"; "#B"; "x"] "#B" "#E") as (_ & Hnone & _).
    apply Hnone. intros [|[|[|i]]] [|[|[|j]]] Hi _ Hj; try discriminate; lia.
  - apply (Hdoc (Sample.document
                   [("worker", Sample.role (Some ["#TENSORBOARD_CMD_END"; "python train.py"]) None)]
                   (Some Sample.tensorBoardExtras) None)).
    + apply (bool_decide_unpack _). vm_compute. reflexivity.
    + intros k r Hin. apply list_elem_of_singleton in Hin. injection Hin as -> ->.
      vm_compute. done.
Defined.

(** ** The TensorBoard injection *)

Section Injection.
Context {constants : Constants}.

Lemma fold_push {A B : Type} (h : A → B) (ks : list A) (acc : list B) :
  fold_left (λ acc k, acc ++ [h k]) ks acc = acc ++ (h <$> ks).
Proof.
  revert acc. induction ks as [|k ks IH]; intros acc; simpl.
  - by rewrite app_nil_r.
  - by rewrite IH, <- app_assoc.
Qed.

(** The log-path list is the list of the ["key:path"] pairs. *)
Lemma logPathList_pairs (logDirectories : list (string * string)) :
  NoDup (keys logDirectories) →
  forEach (keys logDirectories) (λ key logPathList,
    logPathList ++ [key +:+ ":" +:+ or_default (get key logDirectories) "undefined"]) []
  = (λ kp, kp.1 +:+ ":" +:+ kp.2) <$> logDirectories.
Proof.
  intros Hnd. unfold forEach.
  rewrite (fold_push (λ key, key +:+ ":" +:+ or_default (get key logDirectories) "undefined")).
  simpl. unfold keys. rewrite <- list_fmap_compose.
  apply list_fmap_ext. intros i [k p] Hi. simpl.
  by rewrite (get_elem_of k p) by (done || by apply list_elem_of_lookup_2 in Hi).
Qed.

(** The first role as the injection leaves it. *)
Lemma inject_first (d : JobSpecDocument) (tb : TensorBoardExtras)
    (firstKey : string) (firstRole : TaskRoleSpec) (rest : list (string * TaskRoleSpec)) :
  tensorBoard_of d = Some tb →
  taskRoles d = (firstKey, firstRole) :: rest →
  Utils.addTensorBoardCommandsToProtocolTaskRoles d
  = Normal (with_taskRoles
      ((firstKey,
        {| commands := Some (Utils.tensorBoardCommands_of tb ++ or_default (commands firstRole) []);
           resourcePerInstance :=
             {| ports := Some (<[Utils.tensorBoardPort_of (randomStr tb) := 1]>
                                 (or_default (ports (resourcePerInstance firstRole)) ∅));
                resource_other := resource_other (resourcePerInstance firstRole) |};
           role_other := role_other firstRole |}) :: rest) d).
Proof.
  intros Htb Hroles. unfold Utils.addTensorBoardCommandsToProtocolTaskRoles.
  rewrite Htb, Hroles. simpl. rewrite decide_True by done.
  unfold Utils.update_taskRole, set_taskRole. rewrite Hroles. simpl.
  rewrite !decide_True by done. simpl. rewrite !decide_True by done.
  destruct d; simpl in *. done.
Qed.

(** Without data to mount, [populateProtocolWithDataAndTensorboard] is the
    TensorBoard injection alone. *)
Lemma populate_without_data (user : string) (d : JobSpecDocument) (jobData : JobData) :
  containData jobData = false →
  Utils.populateProtocolWithDataAndTensorboard user d jobData
  = Utils.addTensorBoardCommandsToProtocolTaskRoles d.
Proof.
  intros Hdata. unfold Utils.populateProtocolWithDataAndTensorboard.
  destruct (Utils.addTensorBoardCommandsToProtocolTaskRoles d); [|done].
  by rewrite Hdata.
Qed.

(** [Array.prototype.join] over strings is the concatenation with a
    separator of the standard library. *)
Lemma join_concat (sep : string) (parts : list string) :
  JsString.join sep parts = String.concat sep parts.
Proof.
  induction parts as [|p [|q rest] IH]; [done..|].
  change (p +:+ sep +:+ JsString.join sep (q :: rest)
          = p +:+ sep +:+ String.concat sep (q :: rest)).
  by rewrite IH.
Qed.

(** C4.  When the document declares TensorBoard extras and has a task
    role, the injection prepends the four generated lines (begin sentinel,
    notice, launch command over the ["key:path"] pairs of [logDirectories]
    in key order with a comma between two of them and the port identifier of
    [randomStr], end sentinel) to the commands of the first role, the one
    [Object.keys] lists first, gives that role's port map the entry [1] for
    the generated port, and leaves every other role, and every other
    property of the first, as it was. *)
Theorem tensorboard_injection_first_role (d : JobSpecDocument) (tb : TensorBoardExtras) :
  tensorBoard_of d = Some tb →
  taskRoles d ≠ [] →
  NoDup (keys (logDirectories tb)) →
  ∃ firstKey firstRole rest injected,
    taskRoles d = (firstKey, firstRole) :: rest ∧
    Utils.addTensorBoardCommandsToProtocolTaskRoles d
    = Normal (with_taskRoles ((firstKey, injected) :: rest) d) ∧
    commands injected
    = Some ([ TENSORBOARD_CMD_START;
              AUTO_GENERATE_NOTIFY;
              "(tensorboard --logdir="
                +:+ String.concat "," ((λ kp, kp.1 +:+ ":" +:+ kp.2) <$> logDirectories tb)
                +:+ " "
                +:+ ("--port=$PAI_CONTAINER_HOST_" +:+ ("tensorBoardPort_" +:+ randomStr tb)
                       +:+ "_PORT_LIST")
                +:+ " &)";
              TENSORBOARD_CMD_END ] ++ or_default (commands firstRole) []) ∧
    ports (resourcePerInstance injected)
    = Some (<["tensorBoardPort_" +:+ randomStr tb := 1]>
              (or_default (ports (resourcePerInstance firstRole)) ∅)) ∧
    (ports (resourcePerInstance injected) ≫= lookup ("tensorBoardPort_" +:+ randomStr tb)) = Some 1 ∧
    resource_other (resourcePerInstance injected) = resource_other (resourcePerInstance firstRole) ∧
    role_other injected = role_other firstRole.
Proof.
  intros Htb Hne Hnd.
  destruct (taskRoles d) as [|[firstKey firstRole] rest] eqn:Hroles; [done|].
  eexists firstKey, firstRole, rest, _. split; [done|].
  split; [by apply inject_first|]. simpl.
  unfold Utils.tensorBoardCommands_of. rewrite logPathList_pairs by done.
  rewrite join_concat.
  split_and!; try done.
  by rewrite lookup_insert_eq.
Qed.

End Injection.

Lemma tensorboard_injection_first_role_witness :
  Utils.addTensorBoardCommandsToProtocolTaskRoles (constants := Sample.constants)
    (Sample.document
       [("worker", Sample.role (Some ["python train.py"]) (Some {["ssh" := 1]}));
        ("ps", Sample.role (Some ["python ps.py"]) None)]
       (Some {| randomStr := "ab12cd34";
                logDirectories := [("train", "/mnt/logs/train");
                                   ("eval", "/mnt/logs/eval");
                                   ("test", "/mnt/logs/test")] |})
       None)
  = Normal (Sample.document
       [("worker",
         Sample.role
           (Some ["#TENSORBOARD_CMD_START";
                  "#Auto generated code, please do not modify";
                  "(tensorboard --logdir=train:/mnt/logs/train,eval:/mnt/logs/eval,test:/mnt/logs/test --port=$PAI_CONTAINER_HOST_tensorBoardPort_ab12cd34_PORT_LIST &)";
                  "#TENSORBOARD_CMD_END";
                  "python train.py"])
           (Some {["ssh" := 1; "tensorBoardPort_ab12cd34" := 1]}));
        ("ps", Sample.role (Some ["python ps.py"]) None)]
       (Some {| randomStr := "ab12cd34";
                logDirectories := [("train", "/mnt/logs/train");
                                   ("eval", "/mnt/logs/eval");
                                   ("test", "/mnt/logs/test")] |})
       None).
Proof.
  destruct (tensorboard_injection_first_role (constants := Sample.constants)
              (Sample.document
                 [("worker", Sample.role (Some ["python train.py"]) (Some {["ssh" := 1]}));
                  ("ps", Sample.role (Some ["python ps.py"]) None)]
                 (Some {| randomStr := "ab12cd34";
                          logDirectories := [("train", "/mnt/logs/train");
                                             ("eval", "/mnt/logs/eval");
                                             ("test", "/mnt/logs/test")] |})
                 None)
              {| randomStr := "ab12cd34";
                 logDirectories := [("train", "/mnt/logs/train");
                                    ("eval", "/mnt/logs/eval");
                                    ("test", "/mnt/logs/test")] |})
    as (firstKey & firstRole & rest & injected & Hroles & Hinject & Hcmd & Hports & _ & Hres & Hother).
  - reflexivity.
  - simpl. discriminate.
  - apply (bool_decide_unpack _). vm_compute. reflexivity.
  - rewrite Hinject. simpl in Hroles. injection Hroles as <- <- <-.
    destruct injected as [c [p ro] o]. simpl in *. subst.
    vm_compute. reflexivity.
Defined.

(** ** Injection followed by the strip pass *)

Section RoundTrip.
Context {constants : Constants}.

(** Lines put in front of a command list that are not the begin sentinel
    do not create a section. *)
Lemma find_section_app_fresh (pre l : list string) (beginTag endTag : string) :
  beginTag ∉ pre →
  Utils.find_section l beginTag endTag = None →
  Utils.find_section (pre ++ l) beginTag endTag = None.
Proof.
  intros Hfresh Hnone. apply find_section_None. intros i j Hi Hfirst Hj.
  pose proof (proj1 (find_section_None l beginTag endTag) Hnone) as Hl.
  destruct (decide (i < length pre)%nat) as [Hlt|Hge].
  { exfalso. apply Hfresh. rewrite lookup_app_l in Hi by done.
    by apply list_elem_of_lookup_2 in Hi. }
  destruct (decide (j < length pre)%nat) as [|Hj']; [lia|].
  rewrite lookup_app_r in Hi, Hj by lia.
  assert (j - length pre ≤ i - length pre)%nat; [|lia].
  apply Hl; [done| |done].
  intros m Hm Hlook. apply (Hfirst (length pre + m)%nat); [lia|].
  rewrite lookup_app_r by lia. by replace (length pre + m - length pre)%nat with m by lia.
Qed.

(** The strip pass undoes the injection in the first role. *)
Lemma strip_role_injected (tb : TensorBoardExtras) (r : TaskRoleSpec)
    (c : list string) (p : gmap string Z) :
  Utils.block_delimited tb →
  commands r = Some c →
  ports (resourcePerInstance r) = Some p →
  p !! Utils.tensorBoardPort_of (randomStr tb) = None →
  Utils.find_section c CUSTOM_STORAGE_START CUSTOM_STORAGE_END = None →
  Utils.find_section c TEAMWISE_DATA_CMD_START TEAMWISE_DATA_CMD_END = None →
  Utils.removeAutoGeneratedCode_role (Some (Utils.tensorBoardPort_of (randomStr tb)))
    {| commands := Some (Utils.tensorBoardCommands_of tb ++ or_default (commands r) []);
       resourcePerInstance :=
         {| ports := Some (<[Utils.tensorBoardPort_of (randomStr tb) := 1]>
                             (or_default (ports (resourcePerInstance r)) ∅));
            resource_other := resource_other (resourcePerInstance r) |};
       role_other := role_other r |}
  = r.
Proof.
  intros (Hcs & Htw & Hnotice & Hlaunch) Hc Hp Hfree Hnocs Hnotw.
  assert (Utils.find_section (Utils.tensorBoardCommands_of tb ++ c)
            TENSORBOARD_CMD_START TENSORBOARD_CMD_END = Some (0%nat, 3%nat)) as Htb.
  { apply find_section_Some. split_and!; [done|lia|lia|done|].
    intros [|[|[|m]]] Hm; try lia; done. }
  assert (Utils.tensorBoardCommands_of tb ++ c ≠ []) as Hne by done.
  unfold Utils.removeAutoGeneratedCode_role.
  cbn [commands resourcePerInstance ports or_default with_commands
       with_resourcePerInstance with_ports resource_other role_other].
  rewrite Hc, Hp. cbn [or_default].
  set (block := Utils.tensorBoardCommands_of tb) in *.
  rewrite bool_decide_false by done.
  rewrite (removeTagSection_find_section (block ++ c)), find_section_app_fresh by done.
  rewrite (removeTagSection_find_section (block ++ c)), find_section_app_fresh by done.
  rewrite (removeTagSection_find_section (block ++ c)), Htb.
  rewrite lookup_insert_eq, delete_insert_id by done.
  destruct r as [rc [rp ro] rother]. simpl in *. by subst.
Qed.

(** C1, as amended.  Injecting the TensorBoard block and then running the
    strip pass gives back the document when the generated block is
    delimited by its own sentinels only, the first role has a command list
    without a well-formed custom-storage or teamwise-data section and a port
    map without the generated port, and the strip pass has nothing to do in
    any other role. *)
Theorem tensorboard_inject_strip_round_trip (d : JobSpecDocument) (tb : TensorBoardExtras)
    (firstKey : string) (firstRole : TaskRoleSpec) (rest : list (string * TaskRoleSpec))
    (c : list string) (p : gmap string Z) :
  tensorBoard_of d = Some tb →
  taskRoles d = (firstKey, firstRole) :: rest →
  NoDup (keys (taskRoles d)) →
  Utils.block_delimited tb →
  commands firstRole = Some c →
  ports (resourcePerInstance firstRole) = Some p →
  p !! Utils.tensorBoardPort_of (randomStr tb) = None →
  Utils.find_section c CUSTOM_STORAGE_START CUSTOM_STORAGE_END = None →
  Utils.find_section c TEAMWISE_DATA_CMD_START TEAMWISE_DATA_CMD_END = None →
  (∀ k r, (k, r) ∈ rest →
          Utils.role_clean (Some (Utils.tensorBoardPort_of (randomStr tb))) r) →
  ∃ injected,
    Utils.addTensorBoardCommandsToProtocolTaskRoles d = Normal injected ∧
    Utils.removeAutoGeneratedCodeFromProtocolTaskRoles injected = d.
Proof.
  intros Htb Hroles Hnd Hblock Hc Hp Hfree Hnocs Hnotw Hrest.
  eexists. split; [by apply inject_first|].
  rewrite strip_map; [|by destruct d; simpl in *; rewrite Hroles in Hnd].
  assert (Utils.generated_port
            (with_taskRoles
               ((firstKey,
                 {| commands := Some (Utils.tensorBoardCommands_of tb ++ or_default (commands firstRole) []);
                    resourcePerInstance :=
                      {| ports := Some (<[Utils.tensorBoardPort_of (randomStr tb) := 1]>
                                          (or_default (ports (resourcePerInstance firstRole)) ∅));
                         resource_other := resource_other (resourcePerInstance firstRole) |};
                    role_other := role_other firstRole |}) :: rest) d)
          = Some (Utils.tensorBoardPort_of (randomStr tb))) as ->.
  { unfold Utils.generated_port. destruct d; simpl in *. unfold tensorBoard_of in *.
    simpl in *. by rewrite Htb. }
  destruct d as [dn dp droles dd dpre ds de dother].
  cbn [taskRoles] in Hroles. subst droles.
  unfold with_taskRoles.
  cbn [taskRoles name parameters deployments prerequisites secrets extras doc_other].
  f_equal. rewrite fmap_cons. cbn [fst snd].
  rewrite (strip_role_injected tb firstRole c p) by done. f_equal.
  transitivity (id <$> rest); [|apply list_fmap_id].
  apply list_fmap_ext. intros i [k r] Hi. simpl. f_equal.
  apply strip_role_clean, (Hrest k). by apply list_elem_of_lookup_2 in Hi.
Qed.

End RoundTrip.

Lemma tensorboard_inject_strip_round_trip_witness :
  ∃ injected,
    Utils.addTensorBoardCommandsToProtocolTaskRoles (constants := Sample.constants)
      (Sample.document
         [("worker", Sample.role (Some ["python train.py"]) (Some {["ssh" := 1]}));
          ("ps", Sample.role (Some ["python ps.py"]) None)]
         (Some Sample.tensorBoardExtras) None) = Normal injected ∧
    Utils.removeAutoGeneratedCodeFromProtocolTaskRoles (constants := Sample.constants) injected
    = Sample.document
        [("worker", Sample.role (Some ["python train.py"]) (Some {["ssh" := 1]}));
         ("ps", Sample.role (Some ["python ps.py"]) None)]
        (Some Sample.tensorBoardExtras) None.
Proof.
  apply (tensorboard_inject_strip_round_trip (constants := Sample.constants)
           _ Sample.tensorBoardExtras "worker"
           (Sample.role (Some ["python train.py"]) (Some {["ssh" := 1]}))
           [("ps", Sample.role (Some ["python ps.py"]) None)]
           ["python train.py"] {["ssh" := 1]}).
  - reflexivity.
  - reflexivity.
  - apply (bool_decide_unpack _). vm_compute. reflexivity.
  - split_and!.
    + apply (bool_decide_unpack _). vm_compute. reflexivity.
    + apply (bool_decide_unpack _). vm_compute. reflexivity.
    + vm_compute. discriminate.
    + vm_compute. discriminate.
  - reflexivity.
  - reflexivity.
  - vm_compute. reflexivity.
  - vm_compute. reflexivity.
  - vm_compute. reflexivity.
  - intros k r Hin. apply list_elem_of_singleton in Hin. injection Hin as -> ->.
    split.
    + vm_compute. done.
    + intros _ port _ q Hq. vm_compute in Hq. discriminate.
Defined.

(** C1, as stated, fails: a first role whose commands already hold a
    custom-storage section loses it in the round trip. *)
Lemma tensorboard_round_trip_counterexample :
  let d := Sample.document
             [("worker",
               Sample.role
                 (Some ["#CUSTOM_STORAGE_START"; "mount /data"; "#CUSTOM_STORAGE_END";
                        "python train.py"])
                 (Some ∅))]
             (Some Sample.tensorBoardExtras) None in
  tensorBoard_of d = Some Sample.tensorBoardExtras ∧
  taskRoles d ≠ [] ∧
  ∃ injected,
    Utils.addTensorBoardCommandsToProtocolTaskRoles (constants := Sample.constants) d
    = Normal injected ∧
    (commands <$> get "worker"
       (taskRoles (Utils.removeAutoGeneratedCodeFromProtocolTaskRoles
                     (constants := Sample.constants) injected)))
    = Some (Some ["python train.py"]) ∧
    (commands <$> get "worker"
       (taskRoles (Utils.removeAutoGeneratedCodeFromProtocolTaskRoles
                     (constants := Sample.constants) injected)))
    ≠ (commands <$> get "worker" (taskRoles d)).
Proof.
  split; [reflexivity|]. split; [discriminate|].
  eexists. split; [reflexivity|]. split; [vm_compute; reflexivity|].
  vm_compute. discriminate.
Qed.

(** Two more ways the round trip changes a document: a first role without
    a port map ends with an empty one, and an entry the port map already
    had under the generated name is deleted. *)
Example round_trip_absent_port_map :
  ∃ injected,
    Utils.addTensorBoardCommandsToProtocolTaskRoles (constants := Sample.constants)
      (Sample.document [("worker", Sample.role (Some ["python train.py"]) None)]
         (Some Sample.tensorBoardExtras) None) = Normal injected ∧
    Utils.removeAutoGeneratedCodeFromProtocolTaskRoles (constants := Sample.constants) injected
    = Sample.document [("worker", Sample.role (Some ["python train.py"]) (Some ∅))]
        (Some Sample.tensorBoardExtras) None.
Proof. eexists. split; [reflexivity|]. vm_compute. reflexivity. Qed.

Example round_trip_port_already_there :
  ∃ injected,
    Utils.addTensorBoardCommandsToProtocolTaskRoles (constants := Sample.constants)
      (Sample.document
         [("worker", Sample.role (Some ["python train.py"])
                       (Some {["tensorBoardPort_ab12cd34" := 2]}))]
         (Some Sample.tensorBoardExtras) None) = Normal injected ∧
    Utils.removeAutoGeneratedCodeFromProtocolTaskRoles (constants := Sample.constants) injected
    = Sample.document [("worker", Sample.role (Some ["python train.py"]) (Some ∅))]
        (Some Sample.tensorBoardExtras) None.
Proof. eexists. split; [reflexivity|]. vm_compute. reflexivity. Qed.

(** ** Decomposition of a document *)

Section Decompose.
Context {constants : Constants} {models : Models}.

Lemma strip_role_frame (port : option string) (r : TaskRoleSpec) :
  role_other (Utils.removeAutoGeneratedCode_role port r) = role_other r ∧
  resource_other (resourcePerInstance (Utils.removeAutoGeneratedCode_role port r))
  = resource_other (resourcePerInstance r).
Proof.
  unfold Utils.removeAutoGeneratedCode_role.
  case_bool_decide; [done|].
  destruct port as [port|]; [|done].
  destruct (ports (resourcePerInstance r)) as [p|]; [|done].
  by destruct (p !! port).
Qed.

Lemma entries_of_object {V : Type} (h : string → option V → V) (fields : list (string * V)) :
  NoDup (keys fields) →
  (∀ k v, h k (Some v) = v) →
  (λ k, (k, h k (get k fields))) <$> keys fields = fields.
Proof.
  intros Hnd Hh. unfold keys. rewrite <- list_fmap_compose.
  transitivity (id <$> fields); [|apply list_fmap_id].
  apply list_fmap_ext. intros i [k v] Hi. simpl.
  rewrite (get_elem_of k v) by (done || by apply list_elem_of_lookup_2 in Hi).
  by rewrite Hh.
Qed.

Lemma populateComponents_default (info : JobBasicInfo) (context : Context) :
  (∀ names name, vcNames context = Some names → name ∈ names →
                 virtualCluster info ≠ Some name) →
  Utils.populateComponents info context
  = {| virtualCluster := Some "default"; info_other := info_other info |}.
Proof.
  intros Hno. unfold Utils.populateComponents.
  destruct (vcNames context) as [[|n names]|] eqn:Hvc; [done| |done].
  destruct (JsArray.find _ _) as [found|] eqn:Hfind; [|done].
  apply find_some in Hfind as [Hin Heq].
  apply bool_decide_eq_true in Heq. exfalso.
  apply (Hno (n :: names) found); [done| |done].
  by apply list_elem_of_In.
Qed.

Lemma populateComponents_known (info : JobBasicInfo) (context : Context) (names : list string) (name : string) :
  vcNames context = Some names → name ∈ names → virtualCluster info = Some name →
  Utils.populateComponents info context = info.
Proof.
  intros Hvc Hin Hrec. unfold Utils.populateComponents. rewrite Hvc.
  destruct names as [|n names]; [by apply elem_of_nil in Hin|].
  destruct (JsArray.find _ _) as [found|] eqn:Hfind; [done|]. exfalso.
  apply list_elem_of_In in Hin. apply (find_none _ _ Hfind) in Hin.
  apply bool_decide_eq_false in Hin. by apply Hin.
Qed.

(** The call on a present document, with the loop over the secrets
    resolved. *)
Lemma getJobComponentsFromConfig_present (d : JobSpecDocument) (context : Context) :
  Utils.getJobComponentsFromConfig (Present d) context
  = let stripped := Utils.removeAutoGeneratedCodeFromProtocolTaskRoles d in
    let secrets := Utils.secrets_or_empty (secrets stripped) in
    {| Utils.returned := Some
         {| Utils.updatedJobInformation :=
              Utils.populateComponents (JobBasicInfo_fromProtocol stripped) context;
            Utils.updatedTaskRoles :=
              (λ name, JobTaskRole_fromProtocol name (get name (taskRoles stripped))
                         (or_default (deployments stripped) [])
                         (or_default (prerequisites stripped) []) secrets)
                <$> keys (taskRoles stripped);
            Utils.updatedParameters :=
              (λ key, {| key := key;
                         value := get_value key (or_default (parameters stripped) []) |})
                <$> keys (or_default (parameters stripped) []);
            Utils.updatedSecrets :=
              if Utils.secrets_is secrets HIDE_SECRET then []
              else (λ kv, {| key := kv.1; value := kv.2 |}) <$> Utils.secrets_entries secrets;
            Utils.updatedExtras := or_default (extras stripped) Utils.empty_extras |};
       Utils.config_after := Present stripped;
       Utils.alerts :=
         if Utils.secrets_is secrets HIDE_SECRET then [Utils.SECRETS_WARNING] else [] |}.
Proof.
  unfold Utils.getJobComponentsFromConfig. cbv zeta.
  destruct (Utils.secrets_is _ _); [done|].
  do 3 f_equal. apply list_fmap_ext. by intros i [k v] _.
Qed.

Lemma strip_secrets (d : JobSpecDocument) :
  secrets (Utils.removeAutoGeneratedCodeFromProtocolTaskRoles d) = secrets d.
Proof. by destruct (strip_frame d) as [roles ->]. Qed.

Lemma removeTagSection_without_section (commands : list string) (beginTag endTag : string) :
  Utils.removeTagSection commands beginTag endTag
  = Utils.without_section commands beginTag endTag.
Proof. apply removeTagSection_find_section. Qed.

(** What the loop body of the strip pass does to a role, spelled out. *)
Lemma strip_role_explicit (port : option string) (r : TaskRoleSpec) :
  role_other (Utils.removeAutoGeneratedCode_role port r) = role_other r ∧
  resource_other (resourcePerInstance (Utils.removeAutoGeneratedCode_role port r))
  = resource_other (resourcePerInstance r) ∧
  (or_default (commands r) [] = [] → Utils.removeAutoGeneratedCode_role port r = r) ∧
  (or_default (commands r) [] ≠ [] →
   commands (Utils.removeAutoGeneratedCode_role port r)
   = Some (Utils.without_generated_sections (or_default (commands r) [])) ∧
   ports (resourcePerInstance (Utils.removeAutoGeneratedCode_role port r))
   = match port, ports (resourcePerInstance r) with
     | Some name, Some p => Some (delete name p)
     | _, other => other
     end).
Proof.
  unfold Utils.removeAutoGeneratedCode_role, Utils.without_generated_sections.
  rewrite !removeTagSection_without_section.
  case_bool_decide as Hnil; [by split_and!|].
  split_and!.
  - destruct port as [name|]; [|done].
    destruct (ports (resourcePerInstance r)) as [p|]; [|done].
    by destruct (p !! name).
  - destruct port as [name|]; [|done].
    destruct (ports (resourcePerInstance r)) as [p|]; [|done].
    by destruct (p !! name).
  - done.
  - intros _. split; [done|].
    destruct port as [name|]; [|done].
    destruct (ports (resourcePerInstance r)) as [p|] eqn:Hp; [|by simpl; rewrite Hp].
    destruct (p !! name) as [n|] eqn:Hn; simpl.
    + done.
    + by rewrite Hp, delete_id.
Qed.

(** C2, as amended.  [getJobComponentsFromConfig] runs the strip pass on
    the document it is given, so it does not leave the document as it was:
    after the call the properties other than [taskRoles] are as they were and
    the roles keep their keys, their order and their other properties; a role
    whose command list is absent or empty is as it was; in every other role
    the commands are the former commands without the first well-formed
    custom-storage section, then without the first well-formed teamwise-data
    section, then without the first well-formed TensorBoard section, and the
    port map is the former one without the entry of the generated port, when
    the document declares TensorBoard extras.  The document is unchanged when
    the pass has nothing to do in any role. *)
Theorem decompose_strips_input (d : JobSpecDocument) (context : Context) :
  NoDup (keys (taskRoles d)) →
  ∃ roles,
    Utils.config_after (Utils.getJobComponentsFromConfig (Present d) context)
    = Present (with_taskRoles roles d) ∧
    Forall2
      (λ before after,
         after.1 = before.1 ∧
         role_other after.2 = role_other before.2 ∧
         resource_other (resourcePerInstance after.2)
         = resource_other (resourcePerInstance before.2) ∧
         (or_default (commands before.2) [] = [] → after.2 = before.2) ∧
         (or_default (commands before.2) [] ≠ [] →
          commands after.2
          = Some (Utils.without_generated_sections (or_default (commands before.2) [])) ∧
          ports (resourcePerInstance after.2)
          = match Utils.generated_port d, ports (resourcePerInstance before.2) with
            | Some name, Some p => Some (delete name p)
            | _, other => other
            end))
      (taskRoles d) roles ∧
    ((∀ k r, (k, r) ∈ taskRoles d → Utils.role_clean (Utils.generated_port d) r) →
     Utils.config_after (Utils.getJobComponentsFromConfig (Present d) context) = Present d).
Proof.
  intros Hnd. rewrite getJobComponentsFromConfig_present. cbn [Utils.config_after].
  eexists. split_and!.
  - by rewrite (strip_map d Hnd).
  - apply Forall2_fmap_r, Forall_Forall2_diag, Forall_forall. intros [k r] _.
    cbn [fst snd]. split; [done|]. apply strip_role_explicit.
  - intros Hclean. by rewrite (strip_clean d Hnd Hclean).
Qed.

(** The secrets of a document that has its task roles.  When [secrets] is
    the redaction string, the secrets list is empty and the warning is given
    to [alert]; otherwise there is no warning and the list holds one pair per
    entry of [secrets]: the pairs of the mapping, none when [secrets] is
    absent. *)
Lemma redacted_secrets_warning (d : JobSpecDocument) (context : Context) :
  ∃ c,
    Utils.returned (Utils.getJobComponentsFromConfig (Present d) context) = Some c ∧
    (secrets d = Some (SecretsString HIDE_SECRET) →
     Utils.updatedSecrets c = [] ∧
     Utils.alerts (Utils.getJobComponentsFromConfig (Present d) context) = [Utils.SECRETS_WARNING]) ∧
    (secrets d ≠ Some (SecretsString HIDE_SECRET) →
     Utils.updatedSecrets c
     = (λ kv, {| key := kv.1; value := kv.2 |})
         <$> Utils.secrets_entries (Utils.secrets_or_empty (secrets d)) ∧
     Utils.alerts (Utils.getJobComponentsFromConfig (Present d) context) = []) ∧
    (∀ fields, secrets d = Some (SecretsObject fields) → NoDup (keys fields) →
               Utils.updatedSecrets c = (λ kv, {| key := kv.1; value := kv.2 |}) <$> fields ∧
               Utils.alerts (Utils.getJobComponentsFromConfig (Present d) context) = []) ∧
    (secrets d = None →
     Utils.updatedSecrets c = [] ∧
     Utils.alerts (Utils.getJobComponentsFromConfig (Present d) context) = []).
Proof.
  rewrite getJobComponentsFromConfig_present. cbv zeta. rewrite strip_secrets.
  eexists. split; [reflexivity|].
  cbn [Utils.updatedSecrets Utils.alerts].
  split_and!.
  - by intros ->.
  - intros Hne.
    assert (Utils.secrets_is (Utils.secrets_or_empty (secrets d)) HIDE_SECRET = false) as ->;
      [|done].
    destruct (secrets d) as [[[|a s]|fields]|]; try done.
    cbn. apply bool_decide_eq_false. congruence.
  - intros fields -> Hnd. cbn. split; [|done]. f_equal.
    by apply (entries_of_object (λ _ o, or_default o JUndefined)).
  - by intros ->.
Qed.

(** On a job document the call on configurations is the call on documents. *)
Lemma getJobComponentsFromConfig_of_document (d : JobSpecDocument) (context : Context) :
  Loose.getJobComponentsFromConfig (Present (Loose.of_document d)) context
  = Normal (Utils.getJobComponentsFromConfig (Present d) context).
Proof. by destruct d. Qed.

(** C5.  A configuration without [taskRoles] is not decomposed, whatever
    its [secrets] are: the call throws a [TypeError], so that no secrets
    list is returned and no warning is given.  The default that line 95
    takes for a missing [taskRoles] comes after the strip pass of line 93,
    which reads the keys of [taskRoles] without one. *)
Theorem decompose_without_taskRoles_throws (jobConfig : Loose.JobConfig) (context : Context) :
  Loose.config_taskRoles jobConfig = None →
  Loose.getJobComponentsFromConfig (Present jobConfig) context = TypeError.
Proof.
  intros Hroles. unfold Loose.getJobComponentsFromConfig, Loose.as_document.
  by rewrite Hroles.
Qed.

(** C8.  The job information returned for a document is the one the
    constructor builds from it, with the virtual cluster set to ["default"]
    when the context has no names or none that is the recorded virtual
    cluster, and left as recorded otherwise. *)
Theorem virtual_cluster_default (d : JobSpecDocument) (context : Context) :
  ∃ c,
    Utils.returned (Utils.getJobComponentsFromConfig (Present d) context) = Some c ∧
    let recorded :=
      JobBasicInfo_fromProtocol (Utils.removeAutoGeneratedCodeFromProtocolTaskRoles d) in
    ((∀ names name, vcNames context = Some names → name ∈ names →
                    virtualCluster recorded ≠ Some name) →
     virtualCluster (Utils.updatedJobInformation c) = Some "default") ∧
    (∀ names name, vcNames context = Some names → name ∈ names →
                   virtualCluster recorded = Some name →
                   virtualCluster (Utils.updatedJobInformation c) = Some name) ∧
    info_other (Utils.updatedJobInformation c) = info_other recorded.
Proof.
  rewrite getJobComponentsFromConfig_present. cbv zeta.
  eexists. split; [reflexivity|]. cbn [Utils.updatedJobInformation].
  split_and!.
  - intros Hno. by rewrite populateComponents_default.
  - intros names name Hvc Hin Hrec.
    by rewrite (populateComponents_known _ _ names name).
  - unfold Utils.populateComponents.
    destruct (vcNames context) as [[|n names]|]; try done.
    by destruct (JsArray.find _ _).
Qed.

(** C9.  For an absent document, [null] or [undefined], the function
    returns [undefined] at once: nothing is raised, no warning is shown, and
    nothing is transformed. *)
Theorem absent_document_returns_undefined (context : Context) :
  Utils.getJobComponentsFromConfig Undefined context
  = {| Utils.returned := None; Utils.config_after := Undefined; Utils.alerts := [] |} ∧
  Utils.getJobComponentsFromConfig Null context
  = {| Utils.returned := None; Utils.config_after := Null; Utils.alerts := [] |}.
Proof. done. Qed.

End Decompose.

Lemma decompose_strips_input_witness :
  Utils.config_after
    (Utils.getJobComponentsFromConfig (constants := Sample.constants) (models := Sample.models)
       (Present (Sample.document
                   [("worker",
                     Sample.role
                       (Some ["#CUSTOM_STORAGE_START"; "mount /data"; "#CUSTOM_STORAGE_END";
                              "#TENSORBOARD_CMD_START"; "(tensorboard &)"; "#TENSORBOARD_CMD_END";
                              "python train.py"; "#TENSORBOARD_CMD_END"])
                       (Some {["ssh" := 1; "tensorBoardPort_ab12cd34" := 1]}));
                    ("idle", Sample.role None (Some {["tensorBoardPort_ab12cd34" := 1]}))]
                   (Some Sample.tensorBoardExtras) None))
       {| vcNames := Some ["vc1"] |})
  = Present (Sample.document
               [("worker",
                 Sample.role (Some ["python train.py"; "#TENSORBOARD_CMD_END"])
                   (Some {["ssh" := 1]}));
                ("idle", Sample.role None (Some {["tensorBoardPort_ab12cd34" := 1]}))]
               (Some Sample.tensorBoardExtras) None) ∧
  Utils.config_after
    (Utils.getJobComponentsFromConfig (constants := Sample.constants) (models := Sample.models)
       (Present (Sample.document
                   [("worker", Sample.role (Some ["python train.py"]) (Some {["ssh" := 1]}))]
                   (Some Sample.tensorBoardExtras) None))
       {| vcNames := Some ["vc1"] |})
  = Present (Sample.document
               [("worker", Sample.role (Some ["python train.py"]) (Some {["ssh" := 1]}))]
               (Some Sample.tensorBoardExtras) None).
Proof.
  split.
  - destruct (decompose_strips_input (constants := Sample.constants) (models := Sample.models)
                (Sample.document
                   [("worker",
                     Sample.role
                       (Some ["#CUSTOM_STORAGE_START"; "mount /data"; "#CUSTOM_STORAGE_END";
                              "#TENSORBOARD_CMD_START"; "(tensorboard &)"; "#TENSORBOARD_CMD_END";
                              "python train.py"; "#TENSORBOARD_CMD_END"])
                       (Some {["ssh" := 1; "tensorBoardPort_ab12cd34" := 1]}));
                    ("idle", Sample.role None (Some {["tensorBoardPort_ab12cd34" := 1]}))]
                   (Some Sample.tensorBoardExtras) None)
                {| vcNames := Some ["vc1"] |})
      as (roles & Hafter & Hroles & _).
    + apply (bool_decide_unpack _). vm_compute. reflexivity.
    + rewrite Hafter. f_equal. unfold Sample.document, with_taskRoles. simpl. f_equal.
      simpl in Hroles.
      apply Forall2_cons_inv_l in Hroles
        as ([k1 r1] & roles1 & (Hk1 & Ho1 & Hr1 & _ & Hstrip1) & Hroles & ->).
      apply Forall2_cons_inv_l in Hroles
        as ([k2 r2] & roles2 & (Hk2 & _ & _ & Hskip2 & _) & Hroles & ->).
      apply Forall2_nil_inv_l in Hroles as ->.
      simpl in *. subst k1 k2. rewrite (Hskip2 eq_refl).
      destruct Hstrip1 as [Hc1 Hp1]; [done|].
      destruct r1 as [c1 [p1 ro1] o1]. simpl in *. subst. vm_compute. reflexivity.
  - destruct (decompose_strips_input (constants := Sample.constants) (models := Sample.models)
                (Sample.document
                   [("worker", Sample.role (Some ["python train.py"]) (Some {["ssh" := 1]}))]
                   (Some Sample.tensorBoardExtras) None)
                {| vcNames := Some ["vc1"] |})
      as (roles & _ & _ & Hclean).
    + apply (bool_decide_unpack _). vm_compute. reflexivity.
    + apply Hclean. intros k r Hin.
      apply list_elem_of_singleton in Hin. injection Hin as -> ->.
      split.
      * vm_compute. done.
      * intros _ port Hport q Hq. injection Hport as <-. injection Hq as <-.
        vm_compute. reflexivity.
Defined.

(** C2, as stated, fails: decomposing a document that holds a generated
    TensorBoard section changes the document that was passed in. *)
Lemma decompose_mutates_input_counterexample :
  let d := Sample.document
             [("worker",
               Sample.role
                 (Some ["#TENSORBOARD_CMD_START";
                        "#Auto generated code, please do not modify";
                        "(tensorboard --logdir=default:/mnt/tensorboard --port=$PAI_CONTAINER_HOST_tensorBoardPort_ab12cd34_PORT_LIST &)";
                        "#TENSORBOARD_CMD_END";
                        "python train.py"])
                 (Some {["tensorBoardPort_ab12cd34" := 1]}))]
             (Some Sample.tensorBoardExtras) None in
  Utils.config_after
    (Utils.getJobComponentsFromConfig (constants := Sample.constants) (models := Sample.models)
       (Present d) {| vcNames := Some ["vc1"] |})
  = Present (Sample.document [("worker", Sample.role (Some ["python train.py"]) (Some ∅))]
               (Some Sample.tensorBoardExtras) None) ∧
  Utils.config_after
    (Utils.getJobComponentsFromConfig (constants := Sample.constants) (models := Sample.models)
       (Present d) {| vcNames := Some ["vc1"] |})
  ≠ Present d.
Proof.
  split; [vm_compute; reflexivity|].
  vm_compute. discriminate.
Qed.

Lemma decompose_without_taskRoles_throws_witness :
  Loose.getJobComponentsFromConfig (constants := Sample.constants) (models := Sample.models)
    (Present {| Loose.config_name := None; Loose.config_parameters := None;
                Loose.config_taskRoles := None; Loose.config_deployments := None;
                Loose.config_prerequisites := None;
                Loose.config_secrets := Some (SecretsString "******");
                Loose.config_extras := None; Loose.config_other := [] |})
    {| vcNames := Some ["vc1"] |}
  = TypeError.
Proof.
  apply (decompose_without_taskRoles_throws (constants := Sample.constants)
           (models := Sample.models)).
  reflexivity.
Defined.

Lemma redacted_secrets_warning_witness :
  (Utils.alerts
     (Utils.getJobComponentsFromConfig (constants := Sample.constants) (models := Sample.models)
        (Present (Sample.document [] None (Some (SecretsString "******"))))
        {| vcNames := None |})
   = [Utils.SECRETS_WARNING]) ∧
  (Utils.updatedSecrets <$>
     Utils.returned
       (Utils.getJobComponentsFromConfig (constants := Sample.constants) (models := Sample.models)
          (Present (Sample.document [] None (Some (SecretsObject [("token", JStr "t0")]))))
          {| vcNames := None |}))
  = Some [{| key := "token"; value := JStr "t0" |}].
Proof.
  split.
  - destruct (redacted_secrets_warning (constants := Sample.constants) (models := Sample.models)
                (Sample.document [] None (Some (SecretsString "******")))
                {| vcNames := None |}) as (c & _ & Hhidden & _).
    destruct (Hhidden eq_refl) as [_ Halert]. exact Halert.
  - destruct (redacted_secrets_warning (constants := Sample.constants) (models := Sample.models)
                (Sample.document [] None (Some (SecretsObject [("token", JStr "t0")])))
                {| vcNames := None |}) as (c & Hret & _ & _ & Hobject & _).
    destruct (Hobject [("token", JStr "t0")] eq_refl) as [Hpairs _].
    + apply (bool_decide_unpack _). vm_compute. reflexivity.
    + rewrite Hret. simpl. by rewrite Hpairs.
Defined.

Lemma virtual_cluster_default_witness :
  (virtualCluster ∘ Utils.updatedJobInformation <$>
     Utils.returned
       (Utils.getJobComponentsFromConfig (constants := Sample.constants) (models := Sample.models)
          (Present (Sample.document [] None None)) {| vcNames := Some ["default"; "vc1"] |}))
  = Some (Some "vc1") ∧
  (virtualCluster ∘ Utils.updatedJobInformation <$>
     Utils.returned
       (Utils.getJobComponentsFromConfig (constants := Sample.constants) (models := Sample.models)
          (Present (Sample.document [] None None)) {| vcNames := Some ["vc2"] |}))
  = Some (Some "default").
Proof.
  split.
  - destruct (virtual_cluster_default (constants := Sample.constants) (models := Sample.models)
                (Sample.document [] None None) {| vcNames := Some ["default"; "vc1"] |})
      as (c & Hret & _ & Hknown & _).
    rewrite Hret. simpl. f_equal.
    apply (Hknown ["default"; "vc1"] "vc1"); [reflexivity| |reflexivity].
    apply (bool_decide_unpack _). vm_compute. reflexivity.
  - destruct (virtual_cluster_default (constants := Sample.constants) (models := Sample.models)
                (Sample.document [] None None) {| vcNames := Some ["vc2"] |})
      as (c & Hret & Hdefault & _).
    rewrite Hret. simpl. f_equal.
    apply Hdefault. intros names name Hnames Hin. injection Hnames as <-.
    apply list_elem_of_singleton in Hin. subst name. vm_compute. discriminate.
Defined.

(** ** Pruning of empty properties *)

(** What the source asks of lodash is what the specification says. *)
Lemma dropped_by_spec_lodash (v : JsValue) :
  isEmpty v && negb (negb (isObject v) && negb (isArrayLike v) && negb (isNil v))
  = Utils.dropped_by_spec v.
Proof.
  destruct v as [| |b|n|s|items|fields]; try done.
  - by destruct s.
  - by destruct items.
  - by destruct fields as [|[k v] fields].
Qed.

Lemma dropped_by_spec_values (v : JsValue) :
  Utils.dropped_by_spec v = true ↔
  v = JUndefined ∨ v = JNull ∨ v = JStr "" ∨ v = JArr [] ∨ v = JObj [].
Proof.
  split.
  - destruct v as [| |b|n|s|items|fields]; try done; try naive_solver.
    + destruct s; [naive_solver|done].
    + destruct items; [naive_solver|done].
    + destruct fields; [naive_solver|done].
  - by intros [->|[->|[->|[->| ->]]]].
Qed.

(** The loop over the keys deletes, in place, the properties whose value
    is to be dropped. *)
Lemma forEach_prune (drop : JsValue → bool) (body : string → list (string * JsValue) → list (string * JsValue))
    (seen todo : list (string * JsValue)) :
  (∀ k o, body k o = if drop (get_value k o) then remove k o else o) →
  NoDup (keys (seen ++ todo)) →
  forEach (keys todo) body (seen ++ todo)
  = seen ++ filter (λ kv, drop kv.2 = false) todo.
Proof.
  intros Hbody. revert seen.
  induction todo as [|[k v] todo IH]; intros seen Hnd; [done|].
  assert (k ∉ keys seen) as Hk.
  { unfold keys in *. rewrite fmap_app in Hnd.
    apply NoDup_app in Hnd as (_ & Hnd & _).
    intros Hin. apply (Hnd _ Hin). simpl. by left. }
  assert (NoDup (keys (seen ++ todo))) as Hnd'.
  { unfold keys in *. rewrite fmap_app in *. simpl in Hnd.
    apply NoDup_app in Hnd as (Hs & Hdisj & Ht). apply NoDup_cons in Ht as [_ Ht].
    apply NoDup_app. split_and!; [done| |done].
    intros x Hx Hx'. apply (Hdisj x Hx). by right. }
  unfold forEach in *. simpl. rewrite Hbody. unfold get_value.
  rewrite (get_app_fresh _ _ _ Hk), get_head. simpl.
  destruct (drop v) eqn:Hdrop.
  - rewrite (remove_app_fresh _ _ _ Hk), remove_head, (IH seen Hnd').
    rewrite filter_cons_False; [done|]. simpl. by rewrite Hdrop.
  - replace (seen ++ (k, v) :: todo) with ((seen ++ [(k, v)]) ++ todo)
      by by rewrite <- app_assoc.
    rewrite IH.
    + rewrite filter_cons_True by done. by rewrite <- app_assoc.
    + by rewrite <- app_assoc.
Qed.

Lemma index_keys_NoDup (n : nat) : NoDup (index_keys n).
Proof.
  unfold index_keys. apply NoDup_fmap_2; [|apply NoDup_seq].
  intros i j Hij. by apply (inj pretty).
Qed.

(** C7.  [removeEmptyProperties] copies the object and drops exactly the
    keys whose value is empty-like (an empty container, [null] or
    [undefined]) and is not a plain primitive; the values dropped are
    [undefined], [null], the empty string, the empty array and the empty
    object, and every number and boolean is kept.  The other keys keep their
    order and values.  An array is copied to an object over its indices, and
    a value that is not an object gives [undefined]. *)
Theorem removeEmptyProperties_drops_empty_like :
  (∀ fields, NoDup (keys fields) →
     Utils.removeEmptyProperties (JObj fields)
     = JObj (filter (λ kv, Utils.dropped_by_spec kv.2 = false) fields)) ∧
  (∀ items,
     Utils.removeEmptyProperties (JArr items)
     = JObj (filter (λ kv, Utils.dropped_by_spec kv.2 = false)
               (zip (index_keys (length items)) items))) ∧
  (∀ v, isObject v = false → Utils.removeEmptyProperties v = JUndefined) ∧
  (∀ v, Utils.dropped_by_spec v = true ↔
        v = JUndefined ∨ v = JNull ∨ v = JStr "" ∨ v = JArr [] ∨ v = JObj []) ∧
  Utils.removeEmptyProperties
    (JObj [("a", JArr []); ("b", JNull); ("c", JNum 0); ("d", JStr "x"); ("e", JObj [])])
  = JObj [("c", JNum 0); ("d", JStr "x")].
Proof.
  assert (∀ o, NoDup (keys o) →
            forEach (keys o) (λ key newObj,
              let onCheckingElement := get_value key newObj in
              if negb (isEmpty onCheckingElement) then newObj
              else if negb (isObject onCheckingElement)
                      && negb (isArrayLike onCheckingElement)
                      && negb (isNil onCheckingElement)
              then newObj
              else remove key newObj) o
            = filter (λ kv, Utils.dropped_by_spec kv.2 = false) o) as Hloop.
  { intros o Hnd. apply (forEach_prune Utils.dropped_by_spec _ [] o); [|done].
    intros k o'. cbv zeta. rewrite <- dropped_by_spec_lodash.
    destruct (isEmpty _); [|done]. simpl.
    by destruct (negb (isObject _) && negb (isArrayLike _) && negb (isNil _)). }
  split_and!.
  - intros fields Hnd. unfold Utils.removeEmptyProperties. simpl. by rewrite Hloop.
  - intros items. unfold Utils.removeEmptyProperties. simpl. rewrite Hloop; [done|].
    unfold keys. rewrite fst_zip; [apply index_keys_NoDup|].
    unfold index_keys. by rewrite length_fmap, length_seq.
  - intros v Hv. unfold Utils.removeEmptyProperties. by rewrite Hv.
  - apply dropped_by_spec_values.
  - vm_compute. reflexivity.
Qed.

Lemma removeEmptyProperties_drops_empty_like_witness :
  Utils.removeEmptyProperties
    (JObj [("n", JNum 0); ("s", JStr ""); ("f", JBool false); ("u", JUndefined);
           ("o", JObj [("k", JNull)])])
  = JObj [("n", JNum 0); ("f", JBool false); ("o", JObj [("k", JNull)])].
Proof.
  destruct removeEmptyProperties_drops_empty_like as (Hobject & _).
  apply (Hobject [("n", JNum 0); ("s", JStr ""); ("f", JBool false); ("u", JUndefined);
                  ("o", JObj [("k", JNull)])]).
  apply (bool_decide_unpack _). vm_compute. reflexivity.
Defined.

(** ** Path prefixes *)

Lemma string_app_cons (a : Ascii.ascii) (s t : string) :
  String a s +:+ t = String a (s +:+ t).
Proof. done. Qed.

Lemma starts_with_app (pattern s : string) :
  JsString.starts_with pattern s = true ↔ ∃ rest, s = pattern +:+ rest.
Proof.
  revert s. induction pattern as [|a pattern IH]; intros s; simpl.
  - split; [by exists s|done].
  - destruct s as [|b s].
    + split; [done|]. by intros [rest Hrest].
    + rewrite andb_true_iff, bool_decide_eq_true, IH. split.
      * intros [-> [rest ->]]. by exists rest.
      * intros [rest Hrest]. rewrite string_app_cons in Hrest.
        injection Hrest as -> ->. eauto.
Qed.

Lemma drop_app (pattern rest : string) :
  JsString.drop (String.length pattern) (pattern +:+ rest) = rest.
Proof. induction pattern as [|a pattern IH]; [done|]. by rewrite string_app_cons. Qed.

Lemma replace_first_empty_at_start (pattern s : string) :
  JsString.starts_with pattern s = true →
  JsString.replace_first_empty pattern s = JsString.drop (String.length pattern) s.
Proof. intros Hstart. destruct s; simpl; by rewrite Hstart. Qed.

(** C10.  [removePathPrefix] deletes the first occurrence of [prefix]
    wherever it stands in [path], at the start or further on, and returns
    [path] when [prefix] does not occur in it. *)
Theorem removePathPrefix_first_occurrence (path prefix : string) :
  ((∀ before after, path ≠ before +:+ prefix +:+ after) →
   Utils.removePathPrefix path prefix = path) ∧
  (∀ before after,
     path = before +:+ prefix +:+ after →
     (∀ before' after', path = before' +:+ prefix +:+ after' →
                        (String.length before ≤ String.length before')%nat) →
     Utils.removePathPrefix path prefix = before +:+ after).
Proof.
  unfold Utils.removePathPrefix. split.
  - induction path as [|c path IH]; intros Hno; simpl.
    + destruct (JsString.starts_with prefix "") eqn:Hstart; [|done].
      apply starts_with_app in Hstart as [rest Hrest]. by destruct (Hno "" rest).
    + destruct (JsString.starts_with prefix (String c path)) eqn:Hstart.
      * apply starts_with_app in Hstart as [rest Hrest]. by destruct (Hno "" rest).
      * f_equal. apply IH. intros before after ->.
        by apply (Hno (String c before) after).
  - intros before. revert path.
    induction before as [|c before IH]; intros path after -> Hfirst.
    + change ("" +:+ prefix +:+ after) with (prefix +:+ after).
      rewrite replace_first_empty_at_start by (apply starts_with_app; eauto).
      apply drop_app.
    + rewrite !string_app_cons. simpl.
      destruct (JsString.starts_with prefix _) eqn:Hstart.
      * apply starts_with_app in Hstart as [rest Hrest].
        specialize (Hfirst "" rest). rewrite !string_app_cons in Hfirst.
        specialize (Hfirst Hrest). simpl in Hfirst. lia.
      * f_equal. apply IH; [done|].
        intros before' after' Heq.
        specialize (Hfirst (String c before') after').
        rewrite !string_app_cons in Hfirst. rewrite Heq in Hfirst.
        specialize (Hfirst eq_refl). simpl in Hfirst. lia.
Qed.

Lemma removePathPrefix_first_occurrence_witness :
  Utils.removePathPrefix "/x/a/b/a/c" "/a" = "/x/b/a/c" ∧
  Utils.removePathPrefix "/a/b/c" "/a/" = "b/c" ∧
  Utils.removePathPrefix "/a/b/c" "/d/" = "/a/b/c".
Proof.
  split_and!.
  - destruct (removePathPrefix_first_occurrence "/x/a/b/a/c" "/a") as [_ Hfirst].
    apply (Hfirst "/x" "/b/a/c"); [reflexivity|].
    intros [|c0 [|c1 before']] after' Heq; simpl; try lia; discriminate.
  - destruct (removePathPrefix_first_occurrence "/a/b/c" "/a/") as [_ Hfirst].
    apply (Hfirst "" "b/c"); [reflexivity|]. intros before' after' _. simpl. lia.
  - destruct (removePathPrefix_first_occurrence "/a/b/c" "/d/") as [Hnone _].
    apply Hnone.
    intros [|c0 [|c1 [|c2 [|c3 [|c4 [|c5 [|c6 before]]]]]]] after Heq; discriminate.
Defined.

(** ** Unique names *)

Lemma candidate_name_inj (namePrefix : string) (i j : Z) :
  Utils.candidate_name namePrefix i = Utils.candidate_name namePrefix j → i = j.
Proof.
  unfold Utils.candidate_name. intros Heq.
  apply (inj (String.app namePrefix)) in Heq.
  apply (inj (String.app "_")) in Heq.
  by apply (inj pretty) in Heq.
Qed.

Lemma candidate_name_nonempty (namePrefix : string) (i : Z) :
  Utils.candidate_name namePrefix i ≠ "".
Proof. unfold Utils.candidate_name. by destruct namePrefix. Qed.

Lemma increment_exact (i : Z) : i < Utils.EXACT_LIMIT → Utils.increment i = i + 1.
Proof. intros Hi. unfold Utils.increment. by rewrite bool_decide_true. Qed.

Lemma increment_stuck (i : Z) : Utils.EXACT_LIMIT ≤ i → Utils.increment i = i.
Proof. intros Hi. unfold Utils.increment. rewrite bool_decide_false; [done|lia]. Qed.

Lemma increment_ge (i : Z) : i ≤ Utils.increment i.
Proof. unfold Utils.increment. case_bool_decide; lia. Qed.

(** The loop condition holds exactly for the used names. *)
Lemma name_is_used_elem_of (usedNames : list string) (name : string) :
  name ≠ "" → (Utils.name_is_used usedNames name = true ↔ name ∈ usedNames).
Proof.
  intros Hne. unfold Utils.name_is_used, JsArray.find.
  destruct (List.find _ usedNames) as [found|] eqn:Hfind.
  - apply find_some in Hfind as [Hin Heq].
    apply bool_decide_eq_true in Heq as ->.
    rewrite bool_decide_false by done. split; [|done].
    intros _. by apply list_elem_of_In.
  - split; [done|]. intros Hin. apply list_elem_of_In in Hin.
    apply (find_none _ _ Hfind) in Hin. apply bool_decide_eq_false in Hin. done.
Qed.

(** The loop only looks at the candidates from the current one on. *)
Lemma createUniqueName_loop_ext (fuel : nat) (used used' : list string) (namePrefix : string) (i : Z) :
  (∀ j, i ≤ j → Utils.candidate_name namePrefix j ∈ used
                ↔ Utils.candidate_name namePrefix j ∈ used') →
  Utils.createUniqueName_loop fuel used namePrefix
    (Utils.candidate_name namePrefix i) (Utils.increment i)
  = Utils.createUniqueName_loop fuel used' namePrefix
      (Utils.candidate_name namePrefix i) (Utils.increment i).
Proof.
  revert i. induction fuel as [|fuel IH]; intros i Hsame; simpl; [done|].
  assert (Utils.name_is_used used (Utils.candidate_name namePrefix i)
          = Utils.name_is_used used' (Utils.candidate_name namePrefix i)) as ->.
  { apply eq_true_iff_eq.
    rewrite !name_is_used_elem_of by apply candidate_name_nonempty.
    apply Hsame. lia. }
  destruct (Utils.name_is_used used' _); [|done].
  apply IH. intros j Hj. apply Hsame. pose proof (increment_ge i). lia.
Qed.

Lemma createUniqueName_loop_spec (n : nat) :
  ∀ (used : list string) (namePrefix : string) (i : Z),
    (length used ≤ n)%nat →
    i + Z.of_nat n < Utils.EXACT_LIMIT →
    ∃ N, i ≤ N ∧
         (Utils.candidate_name namePrefix N ∉ used) ∧
         (∀ M, i ≤ M < N → Utils.candidate_name namePrefix M ∈ used) ∧
         ∀ fuel, (n < fuel)%nat →
           Utils.createUniqueName_loop fuel used namePrefix
             (Utils.candidate_name namePrefix i) (Utils.increment i)
           = Some (Utils.candidate_name namePrefix N, N + 1).
Proof.
  induction n as [|n IH]; intros used namePrefix i Hlen Hrange.
  - destruct used; [|simpl in Hlen; lia].
    exists i. split_and!; [lia|by apply not_elem_of_nil|lia|].
    intros [|fuel] Hfuel; [lia|]. simpl. by rewrite increment_exact by lia.
  - destruct (decide (Utils.candidate_name namePrefix i ∈ used)) as [Hin|Hout].
    + set (used' := filter (λ u, u ≠ Utils.candidate_name namePrefix i) used).
      assert (length used' ≤ n)%nat as Hlen'.
      { assert (length used' < length used)%nat; [|lia].
        apply list_elem_of_lookup in Hin as [k Hk].
        unfold used'. clear -Hk. revert k Hk.
        induction used as [|u used IHu]; intros k Hk; [done|].
        destruct (decide (u = Utils.candidate_name namePrefix i)) as [->|Hne].
        * rewrite filter_cons_False by (intros Hne; by apply Hne).
          pose proof (length_filter (λ u, u ≠ Utils.candidate_name namePrefix i) used).
          simpl. lia.
        * rewrite filter_cons_True by done. simpl.
          destruct k as [|k]; [simpl in Hk; congruence|].
          specialize (IHu k Hk). lia. }
      assert (∀ j, i + 1 ≤ j → Utils.candidate_name namePrefix j ∈ used
                               ↔ Utils.candidate_name namePrefix j ∈ used') as Hsame.
      { intros j Hj. unfold used'. rewrite list_elem_of_filter. split; [|by intros [_ ?]].
        intros Hj'. split; [|done]. intros Heq%candidate_name_inj. lia. }
      destruct (IH used' namePrefix (i + 1) Hlen' ltac:(lia))
        as (N & HN & Hfree & Hbelow & Hrun).
      exists N. split_and!; [lia| | |].
      * intros HNin. apply Hfree, Hsame; [lia|done].
      * intros M HM. destruct (decide (M = i)) as [->|Hne]; [done|].
        apply Hsame; [lia|]. apply Hbelow. lia.
      * intros [|fuel] Hfuel; [lia|]. simpl.
        assert (Utils.name_is_used used (Utils.candidate_name namePrefix i) = true) as ->
          by by apply name_is_used_elem_of; [apply candidate_name_nonempty|].
        rewrite (increment_exact i) by lia.
        rewrite (createUniqueName_loop_ext fuel used used' namePrefix (i + 1) Hsame).
        apply Hrun. lia.
    + exists i. split_and!; [lia|done|lia|].
      intros [|fuel] Hfuel; [lia|]. simpl.
      assert (Utils.name_is_used used (Utils.candidate_name namePrefix i) = false) as ->.
      { apply not_true_is_false. intros Hused.
        by apply name_is_used_elem_of in Hused; [|apply candidate_name_nonempty]. }
      by rewrite increment_exact by lia.
Qed.

(** C6, as amended.  For a start index from [-2^53] on such that the start
    index plus the number of used names is below [2^53], the range in which
    the counter counts exactly, [createUniqueName] terminates, within as
    many tests of the loop condition as there are used names plus one, and
    returns the name [namePrefix_N] for the least [N] from [startindex] on
    whose name is not used, together with [N + 1]. *)
Theorem createUniqueName_smallest_free (usedNames : list string) (namePrefix : string) (startindex : Z) :
  - Utils.EXACT_LIMIT ≤ startindex →
  startindex + Z.of_nat (length usedNames) < Utils.EXACT_LIMIT →
  ∃ N,
    startindex ≤ N ∧
    (Utils.candidate_name namePrefix N ∉ usedNames) ∧
    (∀ M, startindex ≤ M < N → Utils.candidate_name namePrefix M ∈ usedNames) ∧
    ∀ fuel, (length usedNames < fuel)%nat →
      Utils.createUniqueName fuel usedNames namePrefix startindex
      = Some (namePrefix +:+ "_" +:+ pretty N, N + 1).
Proof.
  intros _ Hrange.
  apply (createUniqueName_loop_spec (length usedNames) usedNames namePrefix startindex);
    done.
Qed.

Lemma createUniqueName_smallest_free_witness :
  Utils.createUniqueName 4 ["task_0"; "task_2"; "task_1"] "task" 0 = Some ("task_3", 4).
Proof.
  destruct (createUniqueName_smallest_free ["task_0"; "task_2"; "task_1"] "task" 0)
    as (N & Hge & Hfree & Hbelow & Hrun).
  - vm_compute. discriminate.
  - vm_compute. reflexivity.
  - rewrite (Hrun 4%nat) by (simpl; lia).
    assert (N = 3) as ->; [|reflexivity].
    destruct (decide (N < 3)) as [Hlt|Hnlt].
    + exfalso. apply Hfree.
      assert (N = 0 ∨ N = 1 ∨ N = 2) as [->|[->| ->]] by lia;
        apply (bool_decide_unpack _); vm_compute; reflexivity.
    + destruct (decide (N = 3)) as [|Hne]; [done|]. exfalso.
      assert (Utils.candidate_name "task" 3 ∈ ["task_0"; "task_2"; "task_1"]) as Hin
        by (apply Hbelow; lia).
      revert Hin. apply (bool_decide_unpack _). vm_compute. reflexivity.
Defined.

Lemma createUniqueName_stuck (fuel : nat) (used : list string) (namePrefix : string) (i : Z) :
  Utils.EXACT_LIMIT ≤ i →
  Utils.candidate_name namePrefix i ∈ used →
  Utils.createUniqueName_loop fuel used namePrefix
    (Utils.candidate_name namePrefix i) (Utils.increment i) = None.
Proof.
  intros Hi Hin. induction fuel as [|fuel IH]; simpl; [done|].
  assert (Utils.name_is_used used (Utils.candidate_name namePrefix i) = true) as ->
    by by apply name_is_used_elem_of; [apply candidate_name_nonempty|].
  rewrite !(increment_stuck i) by done.
  by rewrite (increment_stuck i) in IH by done.
Qed.

(** C6, as stated, fails at the start index [2^53]: the returned index is
    [2^53] again, not the successor of the suffix, and when the name of that
    suffix is used the counter stays at [2^53], the same name is tried again
    and the loop does not end, whatever the number of iterations allowed. *)
Lemma createUniqueName_counterexample :
  Utils.createUniqueName 1 [] "task" 9007199254740992
  = Some ("task_9007199254740992", 9007199254740992) ∧
  (∀ fuel, Utils.createUniqueName fuel ["task_9007199254740992"] "task" 9007199254740992
           = None).
Proof.
  split; [vm_compute; reflexivity|].
  intros fuel. unfold Utils.createUniqueName.
  apply createUniqueName_stuck; [vm_compute; discriminate|].
  apply (bool_decide_unpack _). vm_compute. reflexivity.
Qed.

(** * Further properties of the module *)

(** ** Adding and removing a path prefix *)

Lemma replace_first_empty_leading (pattern rest : string) :
  JsString.replace_first_empty pattern (pattern +:+ rest) = rest.
Proof.
  rewrite replace_first_empty_at_start by (apply starts_with_app; eauto).
  apply drop_app.
Qed.

(** X1.  Removing a prefix that was just added gives the path back, also
    when the prefix occurs again inside the path. *)
Theorem removePathPrefix_addPathPrefix (path prefix : string) :
  Utils.removePathPrefix (Utils.addPathPrefix path prefix) prefix = path.
Proof.
  unfold Utils.removePathPrefix, Utils.addPathPrefix.
  apply replace_first_empty_leading.
Qed.



Lemma string_length_app (s t : string) :
  String.length (s +:+ t) = (String.length s + String.length t)%nat.
Proof. induction s as [|a s IH]; [done|]. rewrite string_app_cons. simpl. by rewrite IH. Qed.

Lemma replace_first_empty_shape (pattern s : string) :
  JsString.replace_first_empty pattern s = s ∨
  ∃ before after, s = before +:+ pattern +:+ after ∧
                  JsString.replace_first_empty pattern s = before +:+ after.
Proof.
  induction s as [|c s IH]; simpl.
  - destruct (JsString.starts_with pattern "") eqn:Hstart; [|by left].
    apply starts_with_app in Hstart as [rest Hrest]. right. exists "", rest.
    split; [done|]. rewrite Hrest at 1. apply drop_app.
  - destruct (JsString.starts_with pattern (String c s)) eqn:Hstart.
    + apply starts_with_app in Hstart as [rest Hrest]. right. exists "", rest.
      split; [done|]. rewrite Hrest. apply drop_app.
    + destruct IH as [->|(before & after & -> & ->)]; [by left|].
      right. by exists (String c before), after.
Qed.

(** X3.  [removePathPrefix] returns the path as it is or a path shorter by
    the length of the prefix, never anything else; an empty prefix removes
    nothing. *)
Theorem removePathPrefix_length (path prefix : string) :
  (Utils.removePathPrefix path prefix = path ∨
   (String.length (Utils.removePathPrefix path prefix) + String.length prefix
    = String.length path)%nat) ∧
  Utils.removePathPrefix path "" = path.
Proof.
  unfold Utils.removePathPrefix. split.
  - destruct (replace_first_empty_shape prefix path)
      as [->|(before & after & -> & ->)]; [by left|].
    right. rewrite !string_length_app. lia.
  - by destruct path.
Qed.

(** ** Merging key-value objects *)

Section Merge.
Context {V : Type}.
Implicit Types (o acc cur : list (string * V)) (k : string) (v : V).

Lemma get_set_eq k v o : get k (set k v o) = Some v.
Proof.
  induction o as [|[k' v'] o IH]; simpl.
  - by rewrite decide_True.
  - destruct (decide (k' = k)) as [->|Hne]; simpl.
    + by rewrite decide_True.
    + by rewrite decide_False.
Qed.

Lemma get_set_ne k k' v o : k ≠ k' → get k' (set k v o) = get k' o.
Proof.
  intros Hne. induction o as [|[k0 v0] o IH]; simpl.
  - by rewrite decide_False.
  - destruct (decide (k0 = k)) as [->|Hne0]; simpl.
    + by rewrite !decide_False.
    + by rewrite IH.
Qed.

Lemma get_None k o : get k o = None ↔ k ∉ keys o.
Proof.
  induction o as [|[k' v'] o IH]; simpl.
  - split; [intros _; apply not_elem_of_nil|done].
  - rewrite not_elem_of_cons. destruct (decide (k' = k)) as [->|Hne].
    + split; [done|]. by intros [? _].
    + rewrite IH. split; [by intros ?; split; [congruence|]|by intros [_ ?]].
Qed.

Lemma keys_set_present k v o : k ∈ keys o → keys (set k v o) = keys o.
Proof.
  induction o as [|[k' v'] o IH]; simpl; [by intros ?%elem_of_nil|].
  intros Hin. destruct (decide (k' = k)) as [->|Hne]; [done|]. simpl. f_equal.
  apply IH. apply elem_of_cons in Hin as [->|Hin]; done.
Qed.

Lemma keys_set_fresh k v o : k ∉ keys o → keys (set k v o) = keys o ++ [k].
Proof.
  induction o as [|[k' v'] o IH]; simpl; [done|].
  intros Hout. apply not_elem_of_cons in Hout as [Hne Hout].
  rewrite decide_False by done. simpl. f_equal. by apply IH.
Qed.

Lemma NoDup_keys_set k v o : NoDup (keys o) → NoDup (keys (set k v o)).
Proof.
  intros Hnd. destruct (decide (k ∈ keys o)) as [Hin|Hout].
  - by rewrite keys_set_present.
  - rewrite keys_set_fresh by done. apply NoDup_app. split_and!; [done| |apply NoDup_singleton].
    intros x Hx Hx'. apply list_elem_of_singleton in Hx'. by subst.
Qed.

Lemma set_set k v v' o : set k v (set k v' o) = set k v o.
Proof.
  induction o as [|[k0 v0] o IH]; simpl.
  - by rewrite decide_True.
  - destruct (decide (k0 = k)) as [->|Hne]; simpl.
    + by rewrite decide_True.
    + by rewrite decide_False, IH.
Qed.

(** Two writes commute when the first key written is already there. *)
Lemma set_comm_present k k' v v' o :
  k ≠ k' → k ∈ keys o → set k v (set k' v' o) = set k' v' (set k v o).
Proof.
  intros Hne. induction o as [|[k0 v0] o IH]; simpl; [by intros ?%elem_of_nil|].
  intros Hin. destruct (decide (k0 = k')) as [->|Hne']; simpl.
  - rewrite !decide_False by done. simpl. by rewrite decide_True.
  - destruct (decide (k0 = k)) as [->|Hne0]; simpl.
    + by rewrite decide_False.
    + rewrite decide_False by done. f_equal. apply IH.
      apply elem_of_cons in Hin as [->|Hin]; done.
Qed.

Lemma keyValueArrayReducer_cons acc k v cur :
  Helpers.keyValueArrayReducer acc ((k, v) :: cur)
  = Helpers.keyValueArrayReducer (set k v acc) cur.
Proof. done. Qed.

Lemma keyValueArrayReducer_get acc cur k :
  NoDup (keys cur) →
  get k (Helpers.keyValueArrayReducer acc cur)
  = match get k cur with Some v => Some v | None => get k acc end.
Proof.
  revert acc. induction cur as [|[k' v'] cur IH]; intros acc Hnd; [done|].
  apply NoDup_cons in Hnd as [Hk' Hnd]. simpl in Hk'.
  rewrite keyValueArrayReducer_cons, IH by done. simpl.
  destruct (decide (k' = k)) as [->|Hne].
  - apply get_None in Hk'. by rewrite Hk', get_set_eq.
  - by rewrite get_set_ne.
Qed.

(** X4.  In [{ ...acc, ...cur }] a key has the value [cur] gives it, and
    the value of [acc] when [cur] does not have it; so in a reduction over a
    list of objects every key ends with the value of the last object that has
    it. *)
Theorem keyValueArrayReducer_later_wins :
  (∀ (acc cur : list (string * V)) k, NoDup (keys cur) →
     get k (Helpers.keyValueArrayReducer acc cur)
     = match get k cur with Some v => Some v | None => get k acc end) ∧
  (∀ (objects : list (list (string * V))) init k,
     Forall (λ o, NoDup (keys o)) objects →
     get k (Helpers.reduce_keyValueArray objects init)
     = fold_left (λ found o, match get k o with Some v => Some v | None => found end)
         objects (get k init)).
Proof.
  split; [apply keyValueArrayReducer_get|].
  intros objects. unfold Helpers.reduce_keyValueArray.
  induction objects as [|o objects IH]; intros init k Hnd; [done|].
  apply Forall_cons in Hnd as [Ho Hnd]. simpl.
  by rewrite IH, keyValueArrayReducer_get.
Qed.

Lemma keyValueArrayReducer_NoDup acc cur :
  NoDup (keys acc) → NoDup (keys (Helpers.keyValueArrayReducer acc cur)).
Proof.
  revert acc. induction cur as [|[k v] cur IH]; intros acc Hnd; [done|].
  rewrite keyValueArrayReducer_cons. by apply IH, NoDup_keys_set.
Qed.

Lemma keyValueArrayReducer_set_present acc cur k v :
  k ∈ keys acc → k ∉ keys cur →
  Helpers.keyValueArrayReducer (set k v acc) cur
  = set k v (Helpers.keyValueArrayReducer acc cur).
Proof.
  revert acc. induction cur as [|[k' v'] cur IH]; intros acc Hin Hout; [done|].
  simpl in Hout. apply not_elem_of_cons in Hout as [Hne Hout].
  rewrite !keyValueArrayReducer_cons.
  rewrite <- (set_comm_present k k') by done.
  apply IH; [|done].
  destruct (decide (k' ∈ keys acc)).
  - by rewrite keys_set_present.
  - rewrite keys_set_fresh by done. apply elem_of_app. by left.
Qed.

Lemma keyValueArrayReducer_set acc o k v :
  NoDup (keys o) →
  Helpers.keyValueArrayReducer acc (set k v o)
  = set k v (Helpers.keyValueArrayReducer acc o).
Proof.
  revert acc. induction o as [|[k' v'] o IH]; intros acc Hnd; [done|].
  apply NoDup_cons in Hnd as [Hk' Hnd]. simpl in Hk'. simpl.
  destruct (decide (k' = k)) as [->|Hne].
  - rewrite !keyValueArrayReducer_cons.
    rewrite <- (set_set k v v' acc).
    apply keyValueArrayReducer_set_present; [|done].
    destruct (decide (k ∈ keys acc)).
    + by rewrite keys_set_present.
    + rewrite keys_set_fresh by done. apply elem_of_app. right. by apply list_elem_of_singleton.
  - rewrite !keyValueArrayReducer_cons. by apply IH.
Qed.

(** X5.  On objects keyed by names (no key is an array index, so that the
    keys are listed in the order of their insertion), merging is associative
    and has the empty object as unit on both sides, the order of the keys
    included; it keeps keys unique. *)
Theorem keyValueArrayReducer_monoid :
  (∀ a b c : list (string * V),
     Helpers.named_keys a → Helpers.named_keys b → Helpers.named_keys c →
     NoDup (keys b) →
     Helpers.keyValueArrayReducer a (Helpers.keyValueArrayReducer b c)
     = Helpers.keyValueArrayReducer (Helpers.keyValueArrayReducer a b) c) ∧
  (∀ acc : list (string * V), Helpers.keyValueArrayReducer acc [] = acc) ∧
  (∀ cur : list (string * V),
     Helpers.named_keys cur → NoDup (keys cur) → Helpers.keyValueArrayReducer [] cur = cur) ∧
  (∀ acc cur : list (string * V),
     NoDup (keys acc) → NoDup (keys (Helpers.keyValueArrayReducer acc cur))).
Proof.
  split_and!.
  - intros a b c _ _ _. revert b. induction c as [|[k v] c IH]; intros b Hnd; [done|].
    rewrite !keyValueArrayReducer_cons, IH by by apply NoDup_keys_set.
    by rewrite keyValueArrayReducer_set.
  - done.
  - intros cur _ Hnd.
    assert (∀ seen, NoDup (keys (seen ++ cur)) →
              Helpers.keyValueArrayReducer seen cur = seen ++ cur) as Hgen.
    { clear Hnd. induction cur as [|[k v] cur IH]; intros seen Hnd.
      - by rewrite app_nil_r.
      - rewrite keyValueArrayReducer_cons.
        assert (k ∉ keys seen) as Hk.
        { unfold keys in *. rewrite fmap_app in Hnd.
          apply NoDup_app in Hnd as (_ & Hnd & _).
          intros Hin. apply (Hnd _ Hin). simpl. by left. }
        assert (set k v seen = seen ++ [(k, v)]) as ->.
        { pose proof (set_app_fresh k v seen [] Hk) as Hset.
          by rewrite app_nil_r in Hset. }
        rewrite IH; by rewrite <- app_assoc. }
    by apply (Hgen []).
  - apply keyValueArrayReducer_NoDup.
Qed.

End Merge.

Lemma keyValueArrayReducer_later_wins_witness :
  get "b" (Helpers.reduce_keyValueArray
             [[("a", 1)]; [("b", 2)]; [("a", 3); ("b", 4)]; [("c", 5)]] [])
  = Some 4.
Proof.
  destruct (keyValueArrayReducer_later_wins (V := Z)) as [_ Hreduce].
  rewrite Hreduce; [reflexivity|].
  repeat constructor; intros Hin; repeat (apply elem_of_cons in Hin as [Hin|Hin]; [discriminate|]);
    by apply elem_of_nil in Hin.
Defined.

Lemma keyValueArrayReducer_monoid_witness :
  Helpers.keyValueArrayReducer [("a", 1)]
    (Helpers.keyValueArrayReducer [("b", 2); ("a", 3)] [("c", 4); ("b", 5)])
  = [("a", 3); ("b", 5); ("c", 4)].
Proof.
  destruct (keyValueArrayReducer_monoid (V := Z)) as [Hassoc _].
  rewrite Hassoc; [reflexivity|..].
  - repeat constructor.
  - repeat constructor.
  - repeat constructor.
  - apply (bool_decide_unpack _). vm_compute. reflexivity.
Defined.

(** ** Pruning, once more *)

Lemma removeEmptyProperties_object (fields : list (string * JsValue)) :
  NoDup (keys fields) →
  Utils.removeEmptyProperties (JObj fields)
  = JObj (filter (λ kv, Utils.dropped_by_spec kv.2 = false) fields).
Proof.
  intros Hnd. unfold Utils.removeEmptyProperties. simpl. f_equal.
  apply (forEach_prune Utils.dropped_by_spec _ [] fields); [|done].
  intros k o. cbv zeta. rewrite <- dropped_by_spec_lodash.
  destruct (isEmpty _); [|done]. simpl.
  by destruct (negb (isObject _) && negb (isArrayLike _) && negb (isNil _)).
Qed.

(** X6.  Pruning an object twice is pruning it once: the first result
    keeps the order of the properties it keeps, and none of its values is
    [undefined], [null], the empty string, the empty array or the empty
    object. *)
Theorem removeEmptyProperties_idempotent (fields : list (string * JsValue)) :
  NoDup (keys fields) →
  ∃ out,
    Utils.removeEmptyProperties (JObj fields) = JObj out ∧
    Utils.removeEmptyProperties (JObj out) = JObj out ∧
    out `sublist_of` fields ∧
    ∀ k v, (k, v) ∈ out →
           v ≠ JUndefined ∧ v ≠ JNull ∧ v ≠ JStr "" ∧ v ≠ JArr [] ∧ v ≠ JObj [].
Proof.
  intros Hnd. eexists. split; [by apply removeEmptyProperties_object|].
  assert (filter (λ kv : string * JsValue, Utils.dropped_by_spec kv.2 = false) fields
          `sublist_of` fields) as Hsub by apply sublist_filter.
  split_and!.
  - rewrite removeEmptyProperties_object.
    + f_equal. by apply list_filter_filter_l.
    + apply (sublist_NoDup _ (keys fields)); [done|]. unfold keys. by apply fmap_sublist.
  - done.
  - intros k v Hin. apply list_elem_of_filter in Hin as [Hkeep _]. simpl in Hkeep.
    split_and!; intros ->; done.
Qed.

Lemma removeEmptyProperties_idempotent_witness :
  Utils.removeEmptyProperties
    (Utils.removeEmptyProperties (JObj [("a", JStr ""); ("b", JObj [("c", JNull)]); ("d", JNum 0)]))
  = Utils.removeEmptyProperties (JObj [("a", JStr ""); ("b", JObj [("c", JNull)]); ("d", JNum 0)]).
Proof.
  destruct (removeEmptyProperties_idempotent
              [("a", JStr ""); ("b", JObj [("c", JNull)]); ("d", JNum 0)])
    as (out & Hout & Hagain & _).
  - apply (bool_decide_unpack _). vm_compute. reflexivity.
  - by rewrite Hout, Hagain.
Defined.

(** ** What the strip pass can and cannot do *)

Lemma removeTagSection_keeps_order (commands : list string) (beginTag endTag : string) :
  Utils.removeTagSection commands beginTag endTag `sublist_of` commands.
Proof.
  rewrite removeTagSection_find_section.
  destruct (Utils.find_section _ _ _) as [[i j]|] eqn:Hsec; [|done].
  apply find_section_Some in Hsec as (_ & _ & Hij & _).
  rewrite <- (take_drop i commands) at 3.
  apply sublist_app; [done|].
  replace (S j) with (i + (S j - i))%nat by lia.
  rewrite <- drop_drop. apply sublist_drop.
Qed.

(** X7.  [removeTagSection] only removes: its result is the command list
    with some lines left out, in the same order, and when it differs from the
    list it is shorter by two lines at least, the two sentinels. *)
Theorem removeTagSection_sublist (commands : list string) (beginTag endTag : string) :
  Utils.removeTagSection commands beginTag endTag `sublist_of` commands ∧
  (Utils.removeTagSection commands beginTag endTag ≠ commands →
   (length (Utils.removeTagSection commands beginTag endTag) + 2 ≤ length commands)%nat).
Proof.
  split; [apply removeTagSection_keeps_order|].
  rewrite removeTagSection_find_section.
  destruct (Utils.find_section _ _ _) as [[i j]|] eqn:Hsec; [|done].
  apply find_section_Some in Hsec as (Hi & _ & Hij & Hj & _).
  apply lookup_lt_Some in Hj.
  intros _. rewrite length_app, length_take, length_drop. lia.
Qed.

Lemma removeTagSection_sublist_witness :
  (length (Utils.removeTagSection ["#B"; "#E"; "run"] "#B" "#E") + 2 ≤ 3)%nat.
Proof.
  destruct (removeTagSection_sublist ["#B"; "#E"; "run"] "#B" "#E") as [_ Hshorter].
  apply Hshorter. vm_compute. discriminate.
Defined.

Section StripEffect.
Context {constants : Constants}.

Lemma strip_role_effect (port : option string) (r : TaskRoleSpec) :
  or_default (commands (Utils.removeAutoGeneratedCode_role port r)) []
    `sublist_of` or_default (commands r) [] ∧
  (ports (resourcePerInstance (Utils.removeAutoGeneratedCode_role port r))
   = ports (resourcePerInstance r) ∨
   ∃ name p, port = Some name ∧ ports (resourcePerInstance r) = Some p ∧
             is_Some (p !! name) ∧
             ports (resourcePerInstance (Utils.removeAutoGeneratedCode_role port r))
             = Some (delete name p)) ∧
  (or_default (commands r) [] = [] → Utils.removeAutoGeneratedCode_role port r = r).
Proof.
  unfold Utils.removeAutoGeneratedCode_role.
  case_bool_decide as Hnil; [by split_and!; [|left|]|].
  split_and!.
  - assert (∀ t : TaskRoleSpec, ∀ c, or_default (commands (with_commands (Some c) t)) [] = c)
      as -> by done.
    etrans; [apply removeTagSection_keeps_order|].
    etrans; [apply removeTagSection_keeps_order|].
    apply removeTagSection_keeps_order.
  - destruct port as [name|]; [|by left].
    destruct (ports (resourcePerInstance r)) as [p|] eqn:Hp; [|by left; simpl; rewrite Hp].
    destruct (p !! name) as [n|] eqn:Hn; [|by left; simpl; rewrite Hp].
    right. exists name, p. by split_and!.
  - done.
Qed.

(** X8.  Whatever the document, the strip pass keeps the key and place of
    every role and, role by role, only removes: the commands it leaves are
    commands that were there, in their order, and the port map is the one
    that was there, less at most the entry of the generated port.  A role
    whose command list is absent or empty is left as it is, its port entry
    of the generated port included. *)
Theorem strip_only_removes (d : JobSpecDocument) :
  NoDup (keys (taskRoles d)) →
  Forall2
    (λ before after,
       after.1 = before.1 ∧
       or_default (commands after.2) [] `sublist_of` or_default (commands before.2) [] ∧
       (ports (resourcePerInstance after.2) = ports (resourcePerInstance before.2) ∨
        ∃ name p, Utils.generated_port d = Some name ∧
                  ports (resourcePerInstance before.2) = Some p ∧
                  is_Some (p !! name) ∧
                  ports (resourcePerInstance after.2) = Some (delete name p)) ∧
       (or_default (commands before.2) [] = [] → after = before))
    (taskRoles d)
    (taskRoles (Utils.removeAutoGeneratedCodeFromProtocolTaskRoles d)).
Proof.
  intros Hnd. rewrite strip_map by done.
  destruct d as [dn dp droles dd dpre ds de dother]. cbn [taskRoles with_taskRoles].
  apply Forall2_fmap_r, Forall_Forall2_diag, Forall_forall. intros [k r] _.
  cbn [fst snd].
  destruct (strip_role_effect
              (Utils.generated_port
                 {| name := dn; parameters := dp; taskRoles := droles; deployments := dd;
                    prerequisites := dpre; secrets := ds; extras := de; doc_other := dother |})
              r) as (Hsub & Hports & Hskip).
  split_and!; [done|done|done|].
  intros Hnil. f_equal. exact (Hskip Hnil).
Qed.

End StripEffect.

Lemma strip_only_removes_witness :
  taskRoles
    (Utils.removeAutoGeneratedCodeFromProtocolTaskRoles (constants := Sample.constants)
       (Sample.document
          [("idle", Sample.role None (Some {["tensorBoardPort_ab12cd34" := 1]}))]
          (Some Sample.tensorBoardExtras) None))
  = [("idle", Sample.role None (Some {["tensorBoardPort_ab12cd34" := 1]}))].
Proof.
  pose proof (strip_only_removes (constants := Sample.constants)
                (Sample.document
                   [("idle", Sample.role None (Some {["tensorBoardPort_ab12cd34" := 1]}))]
                   (Some Sample.tensorBoardExtras) None)) as Hstrip.
  destruct (taskRoles (Utils.removeAutoGeneratedCodeFromProtocolTaskRoles _)) as [|after rest] eqn:Hroles.
  - assert (NoDup ["idle"]) as Hnd by (apply (bool_decide_unpack _); vm_compute; reflexivity).
    apply Hstrip in Hnd. inversion Hnd.
  - assert (NoDup ["idle"]) as Hnd by (apply (bool_decide_unpack _); vm_compute; reflexivity).
    apply Hstrip in Hnd. simpl in Hnd.
    apply Forall2_cons in Hnd as [(_ & _ & _ & Hskip) Hrest].
    apply Forall2_nil_inv_l in Hrest as ->.
    by rewrite (Hskip eq_refl).
Defined.

(** ** Data commands and the whole of [populateProtocolWithDataAndTensorboard] *)

Section Populate.
Context {constants : Constants}.

Lemma addPreCommands_map (d : JobSpecDocument) (preCommands : list string) :
  NoDup (keys (taskRoles d)) →
  Utils.addPreCommandsToProtocolTaskRoles d preCommands
  = with_taskRoles
      ((λ kr, (kr.1, with_commands (Some (preCommands ++ or_default (commands kr.2) [])) kr.2))
         <$> taskRoles d) d.
Proof.
  intros Hnd.
  apply (forEach_taskRoles_map
           (λ r, with_commands (Some (preCommands ++ or_default (commands r) [])) r) d Hnd).
Qed.

(** X9.  The data commands go in front of the commands of every role, a
    role without a command list getting one; nothing else in the document
    changes, and prepending [first] and then [second] is prepending
    [second ++ first]. *)
Theorem addPreCommands_every_role (d : JobSpecDocument) :
  NoDup (keys (taskRoles d)) →
  (∀ preCommands,
     Utils.addPreCommandsToProtocolTaskRoles d preCommands
     = with_taskRoles
         ((λ kr, (kr.1, with_commands (Some (preCommands ++ or_default (commands kr.2) [])) kr.2))
            <$> taskRoles d) d) ∧
  (∀ first second,
     Utils.addPreCommandsToProtocolTaskRoles
       (Utils.addPreCommandsToProtocolTaskRoles d first) second
     = Utils.addPreCommandsToProtocolTaskRoles d (second ++ first)).
Proof.
  intros Hnd. split; [intros; by apply addPreCommands_map|].
  intros first second.
  rewrite (addPreCommands_map d first Hnd), (addPreCommands_map d (second ++ first) Hnd).
  rewrite addPreCommands_map.
  - destruct d as [dn dp droles dd dpre ds de dother].
    unfold with_taskRoles. cbn [taskRoles name parameters deployments prerequisites
                                 secrets extras doc_other].
    f_equal. rewrite <- list_fmap_compose. apply list_fmap_ext.
    intros i [k r] _. simpl. by rewrite app_assoc.
  - destruct d as [dn dp droles dd dpre ds de dother].
    cbn [taskRoles with_taskRoles] in *. unfold keys in *.
    rewrite <- list_fmap_compose.
    assert ((fst ∘ (λ kr : string * TaskRoleSpec,
                      (kr.1, with_commands (Some (first ++ or_default (commands kr.2) [])) kr.2)))
              <$> droles = fst <$> droles) as ->; [|done].
    apply list_fmap_ext. by intros i [k r] _.
Qed.

(** X10.  [populateProtocolWithDataAndTensorboard] throws a [TypeError]
    when the document declares TensorBoard extras and has no task role:
    [Object.keys(protocol.taskRoles)[0]] is [undefined] then, and the commands
    of the role of that name are read, whatever the provider of the data
    is. *)
Theorem populate_throws_without_roles (user : string) (d : JobSpecDocument) (jobData : JobData) :
  is_Some (tensorBoard_of d) →
  taskRoles d = [] →
  Utils.populateProtocolWithDataAndTensorboard user d jobData = TypeError.
Proof.
  intros [tb Htb] Hroles.
  unfold Utils.populateProtocolWithDataAndTensorboard,
    Utils.addTensorBoardCommandsToProtocolTaskRoles.
  by rewrite Htb, Hroles.
Qed.

Lemma selected_names (configs : list MountConfig) :
  (if bool_decide (configs = []) then [] else config_name <$> configs)
  = config_name <$> configs.
Proof. by destruct configs. Qed.

(** With data to mount, the result in terms of the injected document. *)
Lemma populate_after_injection (user : string) (d injected : JobSpecDocument) (jobData : JobData) :
  containData jobData = true →
  Utils.addTensorBoardCommandsToProtocolTaskRoles d = Normal injected →
  NoDup (keys (taskRoles injected)) →
  let preCommands := generateDataCommands jobData user (or_default (name injected) "") in
  Utils.populateProtocolWithDataAndTensorboard user d jobData
  = Normal
      (with_extras
         (with_paiStorage (Some (config_name <$> selectedConfigs jobData)) <$> extras injected)
         (with_taskRoles
            ((λ kr, (kr.1, with_commands
                             (Some (preCommands ++ or_default (commands kr.2) [])) kr.2))
               <$> taskRoles injected) injected)).
Proof.
  intros Hdata Hinject Hnd preCommands.
  unfold Utils.populateProtocolWithDataAndTensorboard.
  rewrite Hinject, Hdata. cbn [negb]. rewrite addPreCommands_map by done.
  fold preCommands. rewrite selected_names.
  destruct injected as [dn dp droles dd dpre ds [e|] dother]; [done|].
  by cbn.
Qed.

(** X11.  With data to mount and TensorBoard extras, the first role gets
    the data commands, then the TensorBoard block, then its own commands, and
    the generated port; every other role gets the data commands and then its
    own; the names of the selected mount configurations are recorded in the
    extras.  Nothing else changes. *)
Theorem populate_with_data (user : string) (d : JobSpecDocument) (jobData : JobData)
    (e : Extras) (tb : TensorBoardExtras)
    (firstKey : string) (firstRole : TaskRoleSpec) (rest : list (string * TaskRoleSpec)) :
  extras d = Some e →
  tensorBoard e = Some tb →
  taskRoles d = (firstKey, firstRole) :: rest →
  NoDup (keys (taskRoles d)) →
  containData jobData = true →
  let preCommands := generateDataCommands jobData user (or_default (name d) "") in
  Utils.populateProtocolWithDataAndTensorboard user d jobData
  = Normal
      (with_extras
         (Some (with_paiStorage (Some (config_name <$> selectedConfigs jobData)) e))
         (with_taskRoles
            ((firstKey,
              {| commands := Some (preCommands ++ Utils.tensorBoardCommands_of tb
                                     ++ or_default (commands firstRole) []);
                 resourcePerInstance :=
                   {| ports := Some (<[Utils.tensorBoardPort_of (randomStr tb) := 1]>
                                       (or_default (ports (resourcePerInstance firstRole)) ∅));
                      resource_other := resource_other (resourcePerInstance firstRole) |};
                 role_other := role_other firstRole |})
             :: ((λ kr, (kr.1, with_commands
                                 (Some (preCommands ++ or_default (commands kr.2) [])) kr.2))
                   <$> rest)) d)).
Proof.
  intros He Htb Hroles Hnd Hdata preCommands.
  rewrite (populate_after_injection user d _ jobData Hdata
             (inject_first d tb firstKey firstRole rest
                ltac:(by unfold tensorBoard_of; rewrite He) Hroles)).
  - destruct d as [dn dp droles dd dpre ds de dother].
    cbn [taskRoles extras name] in *. subst droles de.
    cbn [with_taskRoles with_extras extras taskRoles name parameters deployments
         prerequisites secrets doc_other fmap option_fmap option_map].
    by rewrite fmap_cons.
  - destruct d as [dn dp droles dd dpre ds de dother].
    cbn [taskRoles with_taskRoles] in *. by subst droles.
Qed.

End Populate.

Lemma addPreCommands_every_role_witness :
  Utils.addPreCommandsToProtocolTaskRoles
    (Sample.document [("worker", Sample.role (Some ["run"]) None); ("ps", Sample.role None None)]
       None None) ["mount"]
  = Sample.document
      [("worker", Sample.role (Some ["mount"; "run"]) None);
       ("ps", Sample.role (Some ["mount"]) None)] None None.
Proof.
  destruct (addPreCommands_every_role
              (Sample.document
                 [("worker", Sample.role (Some ["run"]) None); ("ps", Sample.role None None)]
                 None None)) as [Hmap _].
  - apply (bool_decide_unpack _). vm_compute. reflexivity.
  - rewrite Hmap. reflexivity.
Defined.

Lemma populate_throws_without_roles_witness :
  Utils.populateProtocolWithDataAndTensorboard (constants := Sample.constants) "user"
    (Sample.document [] (Some Sample.tensorBoardExtras) None)
    {| containData := true; generateDataCommands := λ _ _, ["mount /data"];
       selectedConfigs := [] |}
  = TypeError.
Proof.
  apply populate_throws_without_roles; [by eexists|reflexivity].
Defined.

Lemma populate_with_data_witness :
  Utils.populateProtocolWithDataAndTensorboard (constants := Sample.constants) "user"
    (Sample.document
       [("worker", Sample.role (Some ["run"]) None); ("ps", Sample.role None None)]
       (Some Sample.tensorBoardExtras) None)
    {| containData := true;
       generateDataCommands := λ _ _, ["mount"];
       selectedConfigs := [{| config_name := "nfs" |}] |}
  = Normal
      {| name := Some "job"; parameters := None;
         taskRoles :=
           [("worker",
             Sample.role
               (Some ["mount";
                      "#TENSORBOARD_CMD_START";
                      "#Auto generated code, please do not modify";
                      "(tensorboard --logdir=default:/mnt/tensorboard --port=$PAI_CONTAINER_HOST_tensorBoardPort_ab12cd34_PORT_LIST &)";
                      "#TENSORBOARD_CMD_END";
                      "run"])
               (Some {["tensorBoardPort_ab12cd34" := 1]}));
            ("ps", Sample.role (Some ["mount"]) None)];
         deployments := None; prerequisites := None; secrets := None;
         extras := Some {| tensorBoard := Some Sample.tensorBoardExtras;
                           paiStorage := Some ["nfs"]; extras_other := [] |};
         doc_other := [("virtualCluster", JStr "vc1")] |}.
Proof.
  rewrite (populate_with_data (constants := Sample.constants) "user" _ _
             {| tensorBoard := Some Sample.tensorBoardExtras; paiStorage := None;
                extras_other := [] |}
             Sample.tensorBoardExtras "worker" (Sample.role (Some ["run"]) None)
             [("ps", Sample.role None None)]).
  - reflexivity.
  - reflexivity.
  - reflexivity.
  - reflexivity.
  - apply (bool_decide_unpack _). vm_compute. reflexivity.
  - reflexivity.
Defined.

(** ** Populating a document and decomposing it again *)

Section PopulateDecompose.
Context {constants : Constants} {models : Models}.

Lemma removeTagSection_leading (beginTag endTag : string) (body rest : list string) :
  endTag ∉ body →
  Utils.removeTagSection ((beginTag :: body ++ [endTag]) ++ rest) beginTag endTag = rest.
Proof.
  intros Hbody. rewrite removeTagSection_find_section.
  assert (Utils.find_section ((beginTag :: body ++ [endTag]) ++ rest) beginTag endTag
          = Some (0%nat, S (length body))) as ->.
  { apply find_section_Some. split_and!; [reflexivity|lia|simpl; lia| |].
    - simpl. rewrite <- app_assoc, lookup_app_r by lia.
      by replace (length body - length body)%nat with 0%nat by lia.
    - intros [|m] Hm Hlook; [lia|]. simpl in Hlook.
      rewrite <- app_assoc, lookup_app_l in Hlook by lia.
      apply Hbody. by apply list_elem_of_lookup_2 in Hlook. }
  rewrite take_0, app_nil_l. apply drop_app_length'.
  simpl. rewrite length_app. simpl. lia.
Qed.

Lemma removeTagSection_data_section (beginTag endTag : string) (section rest : list string) :
  Helpers.data_section beginTag endTag section →
  (section = [] → Utils.find_section rest beginTag endTag = None) →
  Utils.removeTagSection (section ++ rest) beginTag endTag = rest.
Proof.
  intros [->|(body & -> & Hbody)] Hrest.
  - simpl. by rewrite removeTagSection_find_section, Hrest.
  - by apply removeTagSection_leading.
Qed.

(** The first two scans of the strip pass take the data commands away. *)
Lemma strip_data_commands (preCommands rest : list string) :
  Helpers.data_commands preCommands →
  Utils.find_section rest CUSTOM_STORAGE_START CUSTOM_STORAGE_END = None →
  Utils.find_section rest TEAMWISE_DATA_CMD_START TEAMWISE_DATA_CMD_END = None →
  Utils.removeTagSection
    (Utils.removeTagSection (preCommands ++ rest) CUSTOM_STORAGE_START CUSTOM_STORAGE_END)
    TEAMWISE_DATA_CMD_START TEAMWISE_DATA_CMD_END
  = rest.
Proof.
  intros (custom & teamwise & -> & Hcustom & Hteamwise & Hfresh) Hcs Htw.
  rewrite <- app_assoc.
  rewrite (removeTagSection_data_section _ _ custom (teamwise ++ rest) Hcustom)
    by (intros _; by apply find_section_app_fresh).
  by apply removeTagSection_data_section.
Qed.

Lemma strip_role_populated_first (tb : TensorBoardExtras) (preCommands : list string)
    (r : TaskRoleSpec) (c : list string) (p : gmap string Z) :
  Utils.block_delimited tb →
  Helpers.data_commands preCommands →
  commands r = Some c →
  Utils.no_generated_section c →
  ports (resourcePerInstance r) = Some p →
  p !! Utils.tensorBoardPort_of (randomStr tb) = None →
  Utils.removeAutoGeneratedCode_role (Some (Utils.tensorBoardPort_of (randomStr tb)))
    {| commands := Some (preCommands ++ Utils.tensorBoardCommands_of tb
                           ++ or_default (commands r) []);
       resourcePerInstance :=
         {| ports := Some (<[Utils.tensorBoardPort_of (randomStr tb) := 1]>
                             (or_default (ports (resourcePerInstance r)) ∅));
            resource_other := resource_other (resourcePerInstance r) |};
       role_other := role_other r |}
  = r.
Proof.
  intros (Hcs & Htw & Hnotice & Hlaunch) Hpre Hc (Hnocs & Hnotw & _) Hp Hfree.
  assert (Utils.find_section (Utils.tensorBoardCommands_of tb ++ c)
            TENSORBOARD_CMD_START TENSORBOARD_CMD_END = Some (0%nat, 3%nat)) as Htb.
  { apply find_section_Some. split_and!; [done|lia|lia|done|].
    intros [|[|[|m]]] Hm; try lia; done. }
  assert (preCommands ++ Utils.tensorBoardCommands_of tb ++ c ≠ []) as Hne.
  { intros Hnil. apply app_eq_nil in Hnil as [_ Hnil]. done. }
  unfold Utils.removeAutoGeneratedCode_role.
  cbn [commands resourcePerInstance ports or_default with_commands
       with_resourcePerInstance with_ports resource_other role_other].
  rewrite Hc, Hp. cbn [or_default].
  set (block := Utils.tensorBoardCommands_of tb) in *.
  rewrite bool_decide_false by done.
  rewrite (strip_data_commands preCommands (block ++ c))
    by (done || by apply find_section_app_fresh).
  rewrite (removeTagSection_find_section (block ++ c)), Htb.
  rewrite lookup_insert_eq, delete_insert_id by done.
  destruct r as [rc [rp ro] rother]. simpl in *. by subst.
Qed.

Lemma strip_role_populated (port : string) (preCommands : list string)
    (r : TaskRoleSpec) (c : list string) :
  Helpers.data_commands preCommands →
  commands r = Some c →
  Utils.no_generated_section c →
  Utils.no_generated_port port r →
  Utils.removeAutoGeneratedCode_role (Some port)
    (with_commands (Some (preCommands ++ or_default (commands r) [])) r)
  = r.
Proof.
  intros Hpre Hc (Hnocs & Hnotw & Hnotb) Hport.
  unfold Utils.removeAutoGeneratedCode_role.
  cbn [commands with_commands resourcePerInstance or_default].
  rewrite Hc. cbn [or_default].
  case_bool_decide as Hnil.
  - apply app_eq_nil in Hnil as [-> ->]. by apply with_commands_id.
  - rewrite (strip_data_commands preCommands c) by done.
    rewrite (removeTagSection_find_section c), Hnotb.
    destruct (ports (resourcePerInstance r)) as [p|] eqn:Hp.
    + rewrite (Hport p Hp). destruct r; simpl in *. by subst.
    + destruct r; simpl in *. by subst.
Qed.

(** X12.  A document that holds no generated section is given back by the
    round trip through the two exported functions: after
    [populateProtocolWithDataAndTensorboard], with data commands and the
    TensorBoard block, [getJobComponentsFromConfig] leaves the document with
    the task roles it had at the start; only the recorded storage names stay
    in the extras. *)
Theorem populate_then_decompose (user : string) (d : JobSpecDocument) (jobData : JobData)
    (context : Context) (e : Extras) (tb : TensorBoardExtras)
    (firstKey : string) (firstRole : TaskRoleSpec) (rest : list (string * TaskRoleSpec))
    (c : list string) (p : gmap string Z) :
  extras d = Some e →
  tensorBoard e = Some tb →
  taskRoles d = (firstKey, firstRole) :: rest →
  NoDup (keys (taskRoles d)) →
  containData jobData = true →
  Helpers.data_commands (generateDataCommands jobData user (or_default (name d) "")) →
  Utils.block_delimited tb →
  commands firstRole = Some c →
  Utils.no_generated_section c →
  ports (resourcePerInstance firstRole) = Some p →
  p !! Utils.tensorBoardPort_of (randomStr tb) = None →
  (∀ k r, (k, r) ∈ rest →
          is_Some (commands r) ∧
          Utils.no_generated_section (or_default (commands r) []) ∧
          Utils.no_generated_port (Utils.tensorBoardPort_of (randomStr tb)) r) →
  ∃ populated,
    Utils.populateProtocolWithDataAndTensorboard user d jobData = Normal populated ∧
    Utils.config_after (Utils.getJobComponentsFromConfig (Present populated) context)
    = Present (with_extras
                 (Some (with_paiStorage (Some (config_name <$> selectedConfigs jobData)) e))
                 d).
Proof.
  intros He Htb Hroles Hnd Hdata Hpre Hblock Hc Hclean Hp Hfree Hrest.
  assert (tensorBoard_of d = Some tb) as Htb' by (by unfold tensorBoard_of; rewrite He).
  pose proof (populate_after_injection user d _ jobData Hdata
                (inject_first d tb firstKey firstRole rest Htb' Hroles)) as Hpopulate.
  destruct d as [dn dp droles dd dpre ds de dother].
  cbn [taskRoles extras name] in *. subst droles de.
  cbn [with_taskRoles with_extras extras taskRoles name parameters deployments
       prerequisites secrets doc_other fmap option_fmap option_map] in Hpopulate.
  rewrite fmap_cons in Hpopulate. unfold with_commands at 1 in Hpopulate.
  cbn [fst snd commands or_default resourcePerInstance role_other] in Hpopulate.
  eexists. split; [by apply Hpopulate|].
  rewrite getJobComponentsFromConfig_present. cbn [Utils.config_after]. f_equal.
  rewrite strip_map.
  - match goal with
    | |- context [Utils.generated_port ?populated] =>
        assert (Utils.generated_port populated
                = Some (Utils.tensorBoardPort_of (randomStr tb))) as ->
          by (unfold Utils.generated_port, tensorBoard_of; simpl; by rewrite Htb)
    end.
    unfold with_taskRoles, with_extras.
    cbn [taskRoles name parameters deployments prerequisites secrets extras doc_other].
    f_equal. rewrite fmap_cons. cbn [fst snd].
    rewrite (strip_role_populated_first tb _ firstRole c p) by done. f_equal.
    rewrite <- list_fmap_compose.
    transitivity (id <$> rest); [|apply list_fmap_id].
    apply list_fmap_ext. intros i [k r] Hi. simpl. f_equal.
    apply list_elem_of_lookup_2 in Hi.
    destruct (Hrest k r Hi) as ([c' Hc'] & Hsec & Hport).
    rewrite Hc' in Hsec. by apply (strip_role_populated _ _ r c').
  - cbn [with_taskRoles with_extras taskRoles]. unfold keys in *.
    rewrite fmap_cons, <- list_fmap_compose. cbn [fst].
    rewrite fmap_cons in Hnd.
    assert ((fst ∘ (λ kr : string * TaskRoleSpec,
                      (kr.1, with_commands
                               (Some (generateDataCommands jobData user (or_default dn "")
                                        ++ or_default (commands kr.2) [])) kr.2)))
              <$> rest = fst <$> rest) as ->; [|done].
    apply list_fmap_ext. by intros i [k r] _.
Qed.

End PopulateDecompose.

Lemma populate_then_decompose_witness :
  ∃ populated,
    Utils.populateProtocolWithDataAndTensorboard (constants := Sample.constants) "user"
      (Sample.document
         [("worker", Sample.role (Some ["run"]) (Some ∅)); ("ps", Sample.role (Some []) None)]
         (Some Sample.tensorBoardExtras) None)
      {| containData := true;
         generateDataCommands := λ _ _,
           ["#TEAMWISE_STORAGE_START"; "mount nfs"; "#TEAMWISE_STORAGE_END"];
         selectedConfigs := [{| config_name := "nfs" |}] |}
    = Normal populated ∧
    Utils.config_after
      (Utils.getJobComponentsFromConfig (constants := Sample.constants) (models := Sample.models)
         (Present populated) {| vcNames := None |})
    = Present
        {| name := Some "job"; parameters := None;
           taskRoles :=
             [("worker", Sample.role (Some ["run"]) (Some ∅)); ("ps", Sample.role (Some []) None)];
           deployments := None; prerequisites := None; secrets := None;
           extras := Some {| tensorBoard := Some Sample.tensorBoardExtras;
                             paiStorage := Some ["nfs"]; extras_other := [] |};
           doc_other := [("virtualCluster", JStr "vc1")] |}.
Proof.
  apply (populate_then_decompose (constants := Sample.constants) (models := Sample.models)
           "user"
           (Sample.document
              [("worker", Sample.role (Some ["run"]) (Some ∅)); ("ps", Sample.role (Some []) None)]
              (Some Sample.tensorBoardExtras) None)
           {| containData := true;
              generateDataCommands := λ _ _,
                ["#TEAMWISE_STORAGE_START"; "mount nfs"; "#TEAMWISE_STORAGE_END"];
              selectedConfigs := [{| config_name := "nfs" |}] |}
           {| vcNames := None |}
           {| tensorBoard := Some Sample.tensorBoardExtras; paiStorage := None;
              extras_other := [] |}
           Sample.tensorBoardExtras "worker" (Sample.role (Some ["run"]) (Some ∅))
           [("ps", Sample.role (Some []) None)] ["run"] ∅).
  - reflexivity.
  - reflexivity.
  - reflexivity.
  - apply (bool_decide_unpack _). vm_compute. reflexivity.
  - reflexivity.
  - exists [], ["#TEAMWISE_STORAGE_START"; "mount nfs"; "#TEAMWISE_STORAGE_END"].
    split_and!.
    + reflexivity.
    + by left.
    + right. exists ["mount nfs"]. split; [reflexivity|].
      apply (bool_decide_unpack _). vm_compute. reflexivity.
    + apply (bool_decide_unpack _). vm_compute. reflexivity.
  - split_and!.
    + apply (bool_decide_unpack _). vm_compute. reflexivity.
    + apply (bool_decide_unpack _). vm_compute. reflexivity.
    + vm_compute. discriminate.
    + vm_compute. discriminate.
  - reflexivity.
  - vm_compute. done.
  - reflexivity.
  - vm_compute. reflexivity.
  - intros k r Hin. apply list_elem_of_singleton in Hin. injection Hin as -> ->.
    split_and!.
    + by eexists.
    + vm_compute. done.
    + intros q Hq. discriminate.
Defined.

(** ** The components of a decomposed document *)

Section Components.
Context {constants : Constants} {models : Models}.

Lemma map_over_keys {V W : Type} (g : string → option V → W) (o : list (string * V)) :
  NoDup (keys o) →
  (λ k, g k (get k o)) <$> keys o = (λ kv, g kv.1 (Some kv.2)) <$> o.
Proof.
  intros Hnd. unfold keys. rewrite <- list_fmap_compose.
  apply list_fmap_ext. intros i [k v] Hi. simpl.
  by rewrite (get_elem_of k v) by (done || by apply list_elem_of_lookup_2 in Hi).
Qed.

(** X13.  The components returned for a document: the extras are the
    document's own (an empty record when it has none), the parameters are
    its parameters as pairs in their order, and there is one task-role
    model per role, in the order of the roles, each built from the role as
    the strip pass leaves it and from the deployments, prerequisites and
    secrets of the document with their defaults. *)
Theorem decompose_components (d : JobSpecDocument) (context : Context) :
  NoDup (keys (taskRoles d)) →
  ∃ c,
    Utils.returned (Utils.getJobComponentsFromConfig (Present d) context) = Some c ∧
    Utils.updatedExtras c = or_default (extras d) Utils.empty_extras ∧
    (∀ params, parameters d = Some params → NoDup (keys params) →
               Utils.updatedParameters c
               = (λ kv, {| key := kv.1; value := kv.2 |}) <$> params) ∧
    (parameters d = None → Utils.updatedParameters c = []) ∧
    Utils.updatedTaskRoles c
    = (λ kr, JobTaskRole_fromProtocol kr.1
               (Some (Utils.removeAutoGeneratedCode_role (Utils.generated_port d) kr.2))
               (or_default (deployments d) []) (or_default (prerequisites d) [])
               (Utils.secrets_or_empty (secrets d)))
        <$> taskRoles d.
Proof.
  intros Hnd. rewrite getJobComponentsFromConfig_present. cbv zeta.
  rewrite (strip_map d Hnd).
  eexists. split; [reflexivity|].
  destruct d as [dn dp droles dd dpre ds de dother].
  cbn [Utils.updatedExtras Utils.updatedParameters Utils.updatedTaskRoles with_taskRoles
       taskRoles name parameters deployments prerequisites secrets extras doc_other] in *.
  split_and!.
  - done.
  - intros params -> Hparams. cbn [or_default]. unfold get_value.
    by rewrite (map_over_keys (λ k o, {| key := k; value := or_default o JUndefined |})).
  - by intros ->.
  - rewrite (map_over_keys
               (λ k o, JobTaskRole_fromProtocol k o (or_default dd []) (or_default dpre [])
                         (Utils.secrets_or_empty ds))).
    + by rewrite <- list_fmap_compose.
    + unfold keys in *. rewrite <- list_fmap_compose.
      assert ((fst ∘ (λ kr : string * TaskRoleSpec,
                        (kr.1, Utils.removeAutoGeneratedCode_role
                                 (Utils.generated_port
                                    {| name := dn; parameters := dp; taskRoles := droles;
                                       deployments := dd; prerequisites := dpre; secrets := ds;
                                       extras := de; doc_other := dother |}) kr.2)))
                <$> droles = fst <$> droles) as ->; [|done].
      apply list_fmap_ext. by intros i [k r] _.
Qed.

(** X14.  After [populateComponents] the virtual cluster is ["default"] or
    one of the names of the context, and applying the function again changes
    nothing. *)
Theorem populateComponents_settles (info : JobBasicInfo) (context : Context) :
  (virtualCluster (Utils.populateComponents info context) = Some "default" ∨
   ∃ names name, vcNames context = Some names ∧ name ∈ names ∧
                 virtualCluster (Utils.populateComponents info context) = Some name) ∧
  Utils.populateComponents (Utils.populateComponents info context) context
  = Utils.populateComponents info context.
Proof.
  unfold Utils.populateComponents.
  destruct (vcNames context) as [[|n names]|] eqn:Hvc; [by split; [left|]| |by split; [left|]].
  destruct (JsArray.find (λ vcName, bool_decide (Some vcName = virtualCluster info)) (n :: names))
    as [found|] eqn:Hfind.
  - split; [|by rewrite Hfind].
    apply find_some in Hfind as [Hin Heq]. apply bool_decide_eq_true in Heq.
    right. exists (n :: names), found. split_and!; [done| |done].
    by apply list_elem_of_In.
  - split; [by left|]. cbn [virtualCluster info_other].
    by destruct (JsArray.find (λ vcName, bool_decide (Some vcName = Some "default"))
                   (n :: names)).
Qed.

End Components.

Lemma decompose_components_witness :
  (Utils.updatedParameters <$>
     Utils.returned
       (Utils.getJobComponentsFromConfig (constants := Sample.constants) (models := Sample.models)
          (Present {| name := None; parameters := Some [("lr", JNum 1); ("opt", JStr "sgd")];
                      taskRoles := []; deployments := None; prerequisites := None;
                      secrets := None; extras := None; doc_other := [] |})
          {| vcNames := None |}))
  = Some [{| key := "lr"; value := JNum 1 |}; {| key := "opt"; value := JStr "sgd" |}].
Proof.
  destruct (decompose_components (constants := Sample.constants) (models := Sample.models)
              {| name := None; parameters := Some [("lr", JNum 1); ("opt", JStr "sgd")];
                 taskRoles := []; deployments := None; prerequisites := None;
                 secrets := None; extras := None; doc_other := [] |}
              {| vcNames := None |}) as (c & Hret & _ & Hparams & _).
  - apply NoDup_nil_2.
  - rewrite Hret. simpl. f_equal.
    apply (Hparams [("lr", JNum 1); ("opt", JStr "sgd")]); [reflexivity|].
    apply (bool_decide_unpack _). vm_compute. reflexivity.
Defined.

(** ** Chains of unique names *)

Lemma createUniqueName_loop_result (fuel : nat) (used : list string) (namePrefix : string) :
  ∀ (i : Z) (name : string) (next : Z),
    Utils.createUniqueName_loop fuel used namePrefix
      (Utils.candidate_name namePrefix i) (Utils.increment i)
    = Some (name, next) →
    ∃ N, i ≤ N ∧ name = Utils.candidate_name namePrefix N ∧ next = Utils.increment N ∧
         name ∉ used.
Proof.
  induction fuel as [|fuel IH]; intros i name next; simpl; [done|].
  destruct (Utils.name_is_used used (Utils.candidate_name namePrefix i)) eqn:Hused.
  - intros Hloop. destruct (IH (Utils.increment i) name next Hloop)
      as (N & HN & -> & -> & Hfree).
    exists N. pose proof (increment_ge i). split_and!; [lia|done..].
  - intros [= <- <-]. exists i. split_and!; [lia|done|done|].
    intros Hin. apply name_is_used_elem_of in Hin; [congruence|apply candidate_name_nonempty].
Qed.

(** X15.  Names drawn in a chain are distinct as long as the counter
    counts exactly: when a call from [-2^53] or later returns a name and a
    next index below [2^53], a later call from that index, over any list of
    used names, returns another name and a larger index; neither name is in
    the list its call was given. *)
Theorem createUniqueName_chain (fuel fuel' : nat) (used used' : list string)
    (namePrefix : string) (startindex : Z) (name name' : string) (next next' : Z) :
  - Utils.EXACT_LIMIT ≤ startindex →
  next < Utils.EXACT_LIMIT →
  Utils.createUniqueName fuel used namePrefix startindex = Some (name, next) →
  Utils.createUniqueName fuel' used' namePrefix next = Some (name', next') →
  name ≠ name' ∧ startindex < next ∧ next < next' ∧ (name ∉ used) ∧ (name' ∉ used').
Proof.
  unfold Utils.createUniqueName. intros _ Hrange Hfirst Hsecond.
  apply createUniqueName_loop_result in Hfirst as (N & HN & -> & -> & Hfree).
  apply createUniqueName_loop_result in Hsecond as (N' & HN' & -> & -> & Hfree').
  assert (N < Utils.EXACT_LIMIT) as HNlimit.
  { destruct (decide (N < Utils.EXACT_LIMIT)) as [|Hge]; [done|].
    rewrite increment_stuck in Hrange by lia. lia. }
  rewrite (increment_exact N) in * by done.
  split_and!; [|lia| |done|done].
  - intros Heq%candidate_name_inj. lia.
  - unfold Utils.increment. case_bool_decide; lia.
Qed.

Lemma createUniqueName_chain_witness :
  "task_1" ≠ "task_3" ∧ 0 < 2 ∧ 2 < 4 ∧
  ("task_1" ∉ ["task_0"]) ∧ ("task_3" ∉ ["task_2"; "task_0"]).
Proof.
  apply (createUniqueName_chain 5 5 ["task_0"] ["task_2"; "task_0"] "task" 0
           "task_1" "task_3" 2 4); try reflexivity.
  vm_compute. discriminate.
Defined.

(** X16.  The result depends on the used names as a set only: two lists
    with the same elements, in any order and with any repetition, give the
    same name and index. *)
Theorem createUniqueName_set (fuel : nat) (used used' : list string)
    (namePrefix : string) (startindex : Z) :
  (∀ x, x ∈ used ↔ x ∈ used') →
  Utils.createUniqueName fuel used namePrefix startindex
  = Utils.createUniqueName fuel used' namePrefix startindex.
Proof.
  intros Hsame. unfold Utils.createUniqueName.
  apply createUniqueName_loop_ext. intros j _. apply Hsame.
Qed.

Lemma createUniqueName_set_witness :
  Utils.createUniqueName 3 ["a_0"; "a_1"] "a" 0
  = Utils.createUniqueName 3 ["a_1"; "a_0"; "a_1"] "a" 0.
Proof.
  apply createUniqueName_set. intros x. split; intros Hin;
    repeat (apply elem_of_cons in Hin as [->|Hin]);
    try (by apply elem_of_nil in Hin);
    apply (bool_decide_unpack _); vm_compute; reflexivity.
Defined.

(** ** Validation of edited TensorBoard extras *)

Section Validation.
Context {constants : Constants}.

Lemma index_keys_length (n : nat) : length (index_keys n) = n.
Proof. unfold index_keys. by rewrite length_fmap, length_seq. Qed.

Lemma array_property_names (items : list JsValue) :
  length (Helpers.getOwnPropertyNames (JArr items)) = S (length items).
Proof.
  unfold Helpers.getOwnPropertyNames, keys. simpl.
  rewrite length_fmap, length_app, length_zip, index_keys_length. simpl. lia.
Qed.

Lemma string_chars_length (s : string) : length (JsString.chars s) = String.length s.
Proof. induction s as [|a s IH]; simpl; by rewrite ?IH. Qed.

Lemma string_property_names (s : string) :
  length (Helpers.getOwnPropertyNames (JStr s)) = S (String.length s).
Proof.
  unfold Helpers.getOwnPropertyNames, keys. simpl.
  rewrite length_fmap, length_app, length_zip, index_keys_length, length_fmap,
    string_chars_length. simpl. lia.
Qed.

(** The values [logDirectories] may have in an accepted record. *)
Lemma accepted_logDirectories (ld : JsValue) :
  Helpers.truthy ld = true ∧ length (Helpers.getOwnPropertyNames ld) ≠ 0%nat
  ↔ (∃ entry entries, ld = JObj (entry :: entries)) ∨
    (∃ items, ld = JArr items) ∨
    (∃ a s, ld = JStr (String a s)).
Proof.
  split.
  - intros [Htruthy Hnames]. destruct ld as [| |b|n|s|items|fields]; try done.
    + destruct s as [|a s]; [done|]. right. right. by exists a, s.
    + right. left. by exists items.
    + destruct fields as [|entry entries]; [done|]. left. by exists entry, entries.
  - intros [(entry & entries & ->)|[(items & ->)|(a & s & ->)]].
    + done.
    + split; [done|]. by rewrite array_property_names.
    + split; [done|]. by rewrite string_property_names.
Qed.

(** The check against an original that is a record. *)
Lemma isValidUpdatedTensorBoardExtras_of_record (original : TensorBoardExtras) (updated : JsValue) :
  (Helpers.isValidUpdatedTensorBoardExtras original updated = TypeError
   ↔ updated = JUndefined ∨ updated = JNull) ∧
  (Helpers.isValidUpdatedTensorBoardExtras original updated = Normal true
   ↔ ∃ fields ld,
       updated = JObj fields ∧ length fields = 2%nat ∧
       get "randomStr" fields = Some (JStr (randomStr original)) ∧
       get "logDirectories" fields = Some ld ∧
       ((∃ entry entries, ld = JObj (entry :: entries)) ∨
        (∃ items, ld = JArr items) ∨
        (∃ a s, ld = JStr (String a s)))).
Proof.
  unfold Helpers.isValidUpdatedTensorBoardExtras. split.
  - destruct (isNil updated) eqn:Hnil.
    + split; [|done]. intros _. destruct updated; try done; eauto.
    + split.
      * by repeat case_match.
      * by intros [-> | ->].
  - split.
    + destruct (isNil updated) eqn:Hnil; [done|].
      destruct (Helpers.is_string _ _) eqn:Hrs; [|done].
      destruct (Helpers.truthy _) eqn:Htruthy; [|done].
      case_bool_decide as Htwo; [|done].
      case_bool_decide as Hnames; [done|]. intros _. cbn [negb] in *.
      destruct updated as [| |b|n|s|items|fields]; try done.
      * rewrite string_property_names in Htwo.
        destruct s as [|a [|a' s]]; try done.
      * rewrite array_property_names in Htwo.
        destruct items as [|x [|y items]]; try done.
      * unfold Helpers.own_property, Helpers.own_properties, get_value in *.
        destruct (get "randomStr" fields) as [[| | | |rs| |]|] eqn:Hget; try done.
        simpl in Hrs. apply bool_decide_eq_true in Hrs as ->.
        destruct (get "logDirectories" fields) as [ld|] eqn:Hld; [|done].
        exists fields, ld. unfold Helpers.getOwnPropertyNames, keys in Htwo. simpl in Htwo.
        rewrite length_fmap in Htwo. split_and!; [done..|].
        by apply accepted_logDirectories.
    + intros (fields & ld & -> & Hlen & Hrs & Hld & Hshape).
      apply accepted_logDirectories in Hshape as [Htruthy Hnames].
      unfold Helpers.own_property, Helpers.own_properties, get_value.
      rewrite Hrs, Hld. simpl. rewrite bool_decide_true by done. rewrite Htruthy. simpl.
      assert (length (Helpers.getOwnPropertyNames (JObj fields)) = 2%nat) as ->.
      { unfold Helpers.getOwnPropertyNames, keys. simpl. by rewrite length_fmap. }
      rewrite bool_decide_true by done. simpl.
      by rewrite bool_decide_false.
Qed.

(** X17.  [isValidUpdatedTensorBoardExtras] throws a [TypeError] exactly
    when the updated value or the original is [null] or [undefined], and
    answers otherwise.  It accepts exactly, for an original record, the
    objects with two properties, [randomStr] holding the string of the
    original and [logDirectories] holding a non-empty object, an array
    (empty or not), or a non-empty string. *)
Theorem isValidUpdatedTensorBoardExtras_accepts (original : Nullable TensorBoardExtras) (updated : JsValue) :
  (Loose.isValidUpdatedTensorBoardExtras original updated = TypeError
   ↔ (updated = JUndefined ∨ updated = JNull) ∨ (original = Undefined ∨ original = Null)) ∧
  (Loose.isValidUpdatedTensorBoardExtras original updated = Normal true
   ↔ ∃ record fields ld,
       original = Present record ∧
       updated = JObj fields ∧ length fields = 2%nat ∧
       get "randomStr" fields = Some (JStr (randomStr record)) ∧
       get "logDirectories" fields = Some ld ∧
       ((∃ entry entries, ld = JObj (entry :: entries)) ∨
        (∃ items, ld = JArr items) ∨
        (∃ a s, ld = JStr (String a s)))).
Proof.
  unfold Loose.isValidUpdatedTensorBoardExtras. split.
  - destruct (isNil updated) eqn:Hnil.
    + split; [|done]. intros _. left. destruct updated; try done; eauto.
    + assert (¬ (updated = JUndefined ∨ updated = JNull)) as Hupdated
        by (by intros [-> | ->]).
      destruct original as [| |record].
      * split; [eauto|done].
      * split; [eauto|done].
      * pose proof (isValidUpdatedTensorBoardExtras_of_record record updated) as [Hthrows _].
        rewrite Hthrows. split; [eauto|]. by intros [?|[?|?]].
  - destruct (isNil updated) eqn:Hnil.
    + split; [done|]. by intros (record & fields & ld & _ & -> & _).
    + destruct original as [| |record].
      * split; [done|]. by intros (record & fields & ld & ? & _).
      * split; [done|]. by intros (record & fields & ld & ? & _).
      * pose proof (isValidUpdatedTensorBoardExtras_of_record record updated) as [_ Haccepts].
        rewrite Haccepts. split.
        -- intros (fields & ld & H). by exists record, fields, ld.
        -- intros (record' & fields & ld & [= <-] & H). by exists fields, ld.
Qed.

(** X18.  For an updated record that is a well-formed extras record, the
    check is that it keeps the [randomStr] of the original and has a log
    directory; the default extras pass it against themselves. *)
Theorem isValidUpdatedTensorBoardExtras_record :
  (∀ original updated : TensorBoardExtras,
     Helpers.isValidUpdatedTensorBoardExtras original (Helpers.tensorBoardExtras_value updated)
     = Normal (bool_decide (randomStr updated = randomStr original)
               && negb (bool_decide (logDirectories updated = [])))) ∧
  (∀ randomStr,
     Helpers.isValidUpdatedTensorBoardExtras
       (Helpers.generateDefaultTensorBoardExtras randomStr)
       (Helpers.tensorBoardExtras_value (Helpers.generateDefaultTensorBoardExtras randomStr))
     = Normal true).
Proof.
  assert (∀ original updated : TensorBoardExtras,
            Helpers.isValidUpdatedTensorBoardExtras original
              (Helpers.tensorBoardExtras_value updated)
            = Normal (bool_decide (randomStr updated = randomStr original)
                      && negb (bool_decide (logDirectories updated = [])))) as Hrecord.
  { intros original [rs dirs]. unfold Helpers.isValidUpdatedTensorBoardExtras. simpl.
    case_bool_decide; [|done]. simpl.
    destruct dirs as [|entry dirs]; done. }
  split; [done|].
  intros rs. rewrite Hrecord. simpl. by rewrite bool_decide_true.
Qed.

End Validation.

Lemma isValidUpdatedTensorBoardExtras_accepts_witness :
  Loose.isValidUpdatedTensorBoardExtras (Present Sample.tensorBoardExtras)
    (JObj [("logDirectories", JArr []); ("randomStr", JStr "ab12cd34")])
  = Normal true ∧
  Loose.isValidUpdatedTensorBoardExtras Undefined
    (JObj [("logDirectories", JArr []); ("randomStr", JStr "ab12cd34")])
  = TypeError.
Proof.
  split.
  - apply isValidUpdatedTensorBoardExtras_accepts.
    exists Sample.tensorBoardExtras,
      [("logDirectories", JArr []); ("randomStr", JStr "ab12cd34")], (JArr []).
    split_and!; [reflexivity..|]. right. left. by exists [].
  - apply isValidUpdatedTensorBoardExtras_accepts. right. by left.
Defined.

(** ** Injecting twice *)

Section InjectTwice.
Context {constants : Constants}.



End InjectTwice.

